(** * Orchestration engine of the STARGENT agents: a shallow embedding

    Source files embedded here:
    - [app/agent/model_class.py]: UserContexts, AgentOutput, AgentPlan,
      AgentContexts and their JSON (de)serialisation;
    - [app/agent/agent.py]: load_prompt, safe_llm_call_with_retry,
      execute_tools_if_needed, create_context_prompt, execute_manager,
      execute_agent, AGENT_EXECUTORS and execute_plan.

    Python values whose type the source leaves open ([Any], and whatever
    [json.loads] hands back) are values of [pyval].  Python strings are byte
    strings holding UTF-8; lengths and slices count code points.  Code that
    can raise returns an [outcome]; code that also talks to the outside
    (model transport, tools, sleeping) runs in the monad [M], whose state
    survives a raised exception, as Python's does.  [print] is left out. *)

From Stdlib Require Import ZArith List String Ascii Bool Lia.
From Stdlib Require Import DecimalString.
Import ListNotations.
Local Open Scope string_scope.
Local Open Scope Z_scope.

Set Implicit Arguments.
Local Set Warnings "-register-all".

(** ** Python values *)

(** A Python float, by its exact value: comparing an [int] with a [float]
    is exact in Python, and no float arithmetic happens in the code below. *)
Inductive pyfloat : Type :=
| FNaN
| FInf (negative : bool)
| FFinite (num : Z) (den : positive).

Inductive pyval : Type :=
| PNone
| PBool (b : bool)
| PInt (z : Z)
| PFloat (f : pyfloat)
| PStr (s : string)
| PList (l : list pyval)
| PDict (d : list (string * pyval)).

(** [Dict[str, Any]]: keys in insertion order. *)
Definition pydict : Type := list (string * pyval).

(** The exception classes the code below tells apart or raises; the three
    [openai] classes are what the model transport raises. *)
Inductive exn_class : Type :=
| JSONDecodeError | KeyError | TypeError | AttributeError
| APIError | RateLimitError | APIConnectionError
| OtherException.

Record exn : Type := mkExn { exn_kind : exn_class; exn_msg : string }.

Inductive outcome (A : Type) : Type :=
| Ret (a : A)
| Raise (e : exn).
Arguments Ret {A} a.
Arguments Raise {A} e.

Definition obind {A B} (o : outcome A) (k : A -> outcome B) : outcome B :=
  match o with
  | Ret a => k a
  | Raise e => Raise e
  end.

Fixpoint dict_get (d : pydict) (k : string) : option pyval :=
  match d with
  | [] => None
  | (k', v) :: rest => if String.eqb k' k then Some v else dict_get rest k
  end.

(** [d[k]] on a dict. *)
Definition dict_item (d : pydict) (k : string) : outcome pyval :=
  match dict_get d k with
  | Some v => Ret v
  | None => Raise (mkExn KeyError k)
  end.

(** [v[k]] with a string key [k], on any value. *)
Definition py_getitem (v : pyval) (k : string) : outcome pyval :=
  match v with
  | PDict d => dict_item d k
  | _ => Raise (mkExn TypeError "indices must be integers or not subscriptable")
  end.

(** [d.get(k, default)]. *)
Definition dict_get_default (d : pydict) (k : string) (dflt : pyval) : pyval :=
  match dict_get d k with
  | Some v => v
  | None => dflt
  end.

(** [v.get(k, default)] on any value: only a dict has [get]. *)
Definition py_get (v : pyval) (k : string) (dflt : pyval) : outcome pyval :=
  match v with
  | PDict d => Ret (dict_get_default d k dflt)
  | _ => Raise (mkExn AttributeError "object has no attribute 'get'")
  end.

(** [for x in v]: the elements visited.  A string yields its characters and
    a dict its keys; the other values are not iterable. *)
Definition is_continuation (c : ascii) : bool :=
  let n := N_of_ascii c in (128 <=? n)%N && (n <? 192)%N.

Fixpoint utf8_chars_aux (cur : string) (s : string) : list string :=
  match s with
  | EmptyString => [cur]
  | String c r =>
      if is_continuation c then utf8_chars_aux (cur ++ String c EmptyString) r
      else cur :: utf8_chars_aux (String c EmptyString) r
  end.

Definition utf8_chars (s : string) : list string :=
  match s with
  | EmptyString => []
  | String c r => utf8_chars_aux (String c EmptyString) r
  end.

Definition py_iter (v : pyval) : outcome (list pyval) :=
  match v with
  | PList l => Ret l
  | PStr s => Ret (map PStr (utf8_chars s))
  | PDict d => Ret (map (fun kv => PStr (fst kv)) d)
  | _ => Raise (mkExn TypeError "object is not iterable")
  end.

(** [hash(v)] succeeds: needed by [v in some_dict]. *)
Definition py_hashable (v : pyval) : bool :=
  match v with
  | PList _ | PDict _ => false
  | _ => true
  end.

(** [k >= v] for an [int] k. *)
Definition int_ge (k : Z) (v : pyval) : outcome bool :=
  match v with
  | PInt z => Ret (z <=? k)
  | PBool b => Ret ((if b then 1 else 0) <=? k)
  | PFloat FNaN => Ret false
  | PFloat (FInf negative) => Ret negative
  | PFloat (FFinite n d) => Ret (n <=? k * Z.pos d)
  | _ => Raise (mkExn TypeError "'>=' not supported between these instances")
  end.

(** [v == k] for an [int] k. *)
Definition eq_int (v : pyval) (k : Z) : bool :=
  match v with
  | PInt z => z =? k
  | PBool b => (if b then 1 else 0) =? k
  | PFloat (FFinite n d) => n =? k * Z.pos d
  | _ => false
  end.

(** ** Strings as code-point sequences *)

(** [len(s)]. *)
Fixpoint utf8_len (s : string) : nat :=
  match s with
  | EmptyString => O
  | String c r => if is_continuation c then utf8_len r else S (utf8_len r)
  end.

(** [s[:n]]. *)
Fixpoint utf8_take (n : nat) (s : string) : string :=
  match s with
  | EmptyString => EmptyString
  | String c r =>
      if is_continuation c then String c (utf8_take n r)
      else match n with
           | O => EmptyString
           | S m => String c (utf8_take m r)
           end
  end.

(** [s[:-1]]: all but the last code point. *)
Definition utf8_drop_last (s : string) : string :=
  utf8_take (Nat.pred (utf8_len s)) s.

(** [needle in s]. *)
Definition contains (needle s : string) : bool :=
  match String.index 0 needle s with
  | Some _ => true
  | None => false
  end.

Definition skip (n : nat) (s : string) : string :=
  String.substring n (String.length s - n) s.

Definition decimal (z : Z) : string :=
  NilZero.string_of_int (Z.to_int z).

(** [", ".join(l)] on strings. *)
Fixpoint join (sep : string) (l : list string) : string :=
  match l with
  | [] => ""
  | [s] => s
  | s :: rest => s ++ sep ++ join sep rest
  end.

(** [v == s] for a string s. *)
Definition eq_str (v : pyval) (s : string) : bool :=
  match v with
  | PStr s' => String.eqb s' s
  | _ => false
  end.

(** [x or dflt] for an optional string: [None] and the empty string are
    falsy. *)
Definition or_default (x : option string) (dflt : string) : string :=
  match x with
  | Some (String c r) => String c r
  | _ => dflt
  end.

(** ** Data model (model_class.py) *)

Record UserContexts : Type := mkUserContexts {
  user_info : pydict;
  chat_history : list pydict
}.

Record AgentOutput : Type := mkAgentOutput {
  final_output : bool;
  progress_description : string;
  output : string
}.

(** The planner fills an AgentPlan with whatever the decoded model response
    holds, so its fields are untyped values. *)
Record AgentPlan : Type := mkAgentPlan {
  total_steps : pyval;
  plans : pyval;
  mode : pyval
}.

(** [total_step] is copied from the plan and the identities recorded are the
    plan's [agent_name] values: both untyped. *)
Record AgentContexts : Type := mkAgentContexts {
  agent_id_history : list pyval;
  total_step : pyval;
  current_step : Z;
  agent_output : list AgentOutput
}.

(** [AgentContexts.add_agent_result]: the object is updated in place; here
    the updated object is returned. *)
Definition add_agent_result (self : AgentContexts) (agent_name : pyval)
    (o : AgentOutput) : AgentContexts :=
  let history := (agent_id_history self ++ [agent_name])%list in
  {| agent_id_history := history;
     total_step := total_step self;
     current_step := Z.of_nat (List.length history);
     agent_output := (agent_output self ++ [o])%list |}.

(** [AgentContexts.is_final_step]. *)
Definition is_final_step (self : AgentContexts) : outcome bool :=
  int_ge (current_step self) (total_step self).

(** ** Messages exchanged with the model *)

Record tool_call : Type := mkToolCall {
  tc_id : string;
  tc_type : string;
  tc_name : string;
  tc_arguments : string
}.

Inductive message : Type :=
| Msg (role : string) (content : pyval)
| AssistantMsg (content : option string) (calls : list tool_call)
| ToolMsg (tool_call_id : string) (content : pyval).

(** A response of the model, as the code reads it: the message of its
    first choice, [response.choices[0].message], with its text and the tool
    calls it asks for.  The transport is taken to supply that first
    choice. *)
Record response : Type := mkResponse {
  resp_content : option string;
  resp_tool_calls : option (list tool_call)
}.

(** The keyword arguments of [client.chat.completions.create]; model name,
    temperature and token bound are constants and left out, and
    [tool_choice] is "auto" exactly when [req_tools] is present. *)
Record request : Type := mkRequest {
  req_messages : list message;
  req_tools : option (list pyval)
}.

(** ** Session state persistence (to_json / from_json) *)

Section Serialisation.

(** [json.dumps(_, ensure_ascii=False, indent=2)] and [json.loads]. *)
Variable json_dumps : pyval -> string.
Variable json_loads : string -> outcome pyval.

(** [dataclasses.asdict]: the fields in declaration order, nested objects
    turned into dicts. *)
Definition asdict_UserContexts (self : UserContexts) : pyval :=
  PDict [ ("user_info", PDict (user_info self));
          ("chat_history", PList (map PDict (chat_history self))) ].

Definition asdict_AgentOutput (self : AgentOutput) : pyval :=
  PDict [ ("final_output", PBool (final_output self));
          ("progress_description", PStr (progress_description self));
          ("output", PStr (output self)) ].

Definition asdict_AgentContexts (self : AgentContexts) : pyval :=
  PDict [ ("agent_id_history", PList (agent_id_history self));
          ("total_step", total_step self);
          ("current_step", PInt (current_step self));
          ("agent_output", PList (map asdict_AgentOutput (agent_output self))) ].

(** The constructors store their keyword arguments unchecked.  The records
    above carry the declared field types, so a value of another type has no
    image here: the casts below answer [TypeError] for it, where Python
    builds an object that breaks its own annotations. *)
Definition ill_typed {A} : outcome A :=
  Raise (mkExn TypeError "field value outside the declared type").

Definition as_bool (v : pyval) : outcome bool :=
  match v with PBool b => Ret b | _ => ill_typed end.

Definition as_int (v : pyval) : outcome Z :=
  match v with PInt z => Ret z | _ => ill_typed end.

Definition as_str (v : pyval) : outcome string :=
  match v with PStr s => Ret s | _ => ill_typed end.

Definition as_list (v : pyval) : outcome (list pyval) :=
  match v with PList l => Ret l | _ => ill_typed end.

Definition as_dict (v : pyval) : outcome pydict :=
  match v with PDict d => Ret d | _ => ill_typed end.

Fixpoint traverse {A B} (f : A -> outcome B) (l : list A) : outcome (list B) :=
  match l with
  | [] => Ret []
  | a :: rest =>
      obind (f a) (fun b => obind (traverse f rest) (fun bs => Ret (b :: bs)))
  end.

(** The keyword arguments a constructor call with [data] unpacked accepts:
    [data] must be a mapping and name only fields of the class. *)
Definition kwargs (fields : list string) (data : pyval) : outcome pydict :=
  match data with
  | PDict d =>
      if forallb (fun kv => existsb (String.eqb (fst kv)) fields) d
      then Ret d
      else Raise (mkExn TypeError "got an unexpected keyword argument")
  | _ => Raise (mkExn TypeError "argument after ** must be a mapping")
  end.

(** [UserContexts] built from the unpacked [data]; an absent field takes
    its default. *)
Definition new_UserContexts (data : pyval) : outcome UserContexts :=
  obind (kwargs ["user_info"; "chat_history"] data) (fun d =>
  obind (as_dict (dict_get_default d "user_info" (PDict []))) (fun ui =>
  obind (as_list (dict_get_default d "chat_history" (PList []))) (fun l =>
  obind (traverse as_dict l) (fun ch =>
  Ret {| user_info := ui; chat_history := ch |})))).

(** [AgentOutput] built from the unpacked [output_dict]. *)
Definition new_AgentOutput (data : pyval) : outcome AgentOutput :=
  obind (kwargs ["final_output"; "progress_description"; "output"] data) (fun d =>
  obind (as_bool (dict_get_default d "final_output" (PBool false))) (fun fo =>
  obind (as_str (dict_get_default d "progress_description" (PStr ""))) (fun pd =>
  obind (as_str (dict_get_default d "output" (PStr ""))) (fun out =>
  Ret {| final_output := fo; progress_description := pd; output := out |})))).

Definition UserContexts_to_json (self : UserContexts) : string :=
  json_dumps (asdict_UserContexts self).

Definition UserContexts_from_json (json_str : string) : outcome UserContexts :=
  obind (json_loads json_str) new_UserContexts.

(** [to_json] replaces the [agent_output] entry of [asdict(self)] by the
    list of [asdict(output)]: the same list again. *)
Definition AgentContexts_to_json (self : AgentContexts) : string :=
  json_dumps (asdict_AgentContexts self).

(** [from_json]: when the decoded mapping has an [agent_output] entry, its
    elements are turned into AgentOutput objects first; the constructor
    then takes every entry as a keyword argument. *)
Definition AgentContexts_from_json (json_str : string) : outcome AgentContexts :=
  obind (json_loads json_str) (fun data =>
  obind (kwargs ["agent_id_history"; "total_step"; "current_step"; "agent_output"]
           data) (fun d =>
  obind match dict_get d "agent_output" with
        | Some v => obind (py_iter v) (traverse new_AgentOutput)
        | None => Ret []
        end (fun outs =>
  obind (as_list (dict_get_default d "agent_id_history" (PList []))) (fun hist =>
  obind (as_int (dict_get_default d "current_step" (PInt 0))) (fun cur =>
  Ret {| agent_id_history := hist;
         total_step := dict_get_default d "total_step" (PInt 1);
         current_step := cur;
         agent_output := outs |}))))).

End Serialisation.

(** ** Further operations of the data model (model_class.py) *)

(** The dict [add_user_message] and [add_assistant_message] append; [now]
    is the text of [datetime.now().isoformat()] at the call. *)
Definition chat_message (role content now : string) (progress : option string)
    : pydict :=
  [ ("role", PStr role);
    ("content", PStr content);
    ("timestamp", PStr now);
    ("progress", match progress with
                 | Some p => PStr p
                 | None => PNone
                 end) ].

(** [UserContexts.add_user_message]. *)
Definition add_user_message (self : UserContexts) (content now : string)
    : UserContexts :=
  {| user_info := user_info self;
     chat_history :=
       (chat_history self ++ [chat_message "user" content now None])%list |}.

(** [UserContexts.add_assistant_message]. *)
Definition add_assistant_message (self : UserContexts) (content : string)
    (progress : option string) (now : string) : UserContexts :=
  {| user_info := user_info self;
     chat_history :=
       (chat_history self
        ++ [chat_message "assistant" content now progress])%list |}.

(** [AgentPlan.add_plan_step]: appends to [self.plans], which must have an
    [append], and sets [total_steps] to the new length. *)
Definition add_plan_step (self : AgentPlan) (agent_name description : string)
    (tool_recommendation : option (list string)) : outcome AgentPlan :=
  let tool_recommendation :=
    match tool_recommendation with
    | Some l => l
    | None => []
    end in
  let plan_step :=
    PDict [ ("agent_name", PStr agent_name);
            ("description", PStr description);
            ("tool_recommendation", PList (map PStr tool_recommendation)) ] in
  match plans self with
  | PList l =>
      Ret {| total_steps := PInt (Z.of_nat (List.length (l ++ [plan_step])%list));
             plans := PList (l ++ [plan_step])%list;
             mode := mode self |}
  | _ => Raise (mkExn AttributeError "object has no attribute 'append'")
  end.

(** [AgentPlan()]: the class defaults. *)
Definition default_AgentPlan : AgentPlan :=
  {| total_steps := PInt 1; plans := PList []; mode := PStr "chat" |}.

(** [add_plan_step] for each (name, description) of [steps] in turn. *)
Fixpoint add_plan_steps (self : AgentPlan) (steps : list (string * string))
    : outcome AgentPlan :=
  match steps with
  | [] => Ret self
  | (agent_name, description) :: rest =>
      obind (add_plan_step self agent_name description None) (fun self' =>
      add_plan_steps self' rest)
  end.

Section MoreSerialisation.

Variable json_dumps : pyval -> string.
Variable json_loads : string -> outcome pyval.

Definition asdict_AgentPlan (self : AgentPlan) : pyval :=
  PDict [ ("total_steps", total_steps self);
          ("plans", plans self);
          ("mode", mode self) ].

(** [AgentPlan] built from the unpacked [data]: its fields take any
    value. *)
Definition new_AgentPlan (data : pyval) : outcome AgentPlan :=
  obind (kwargs ["total_steps"; "plans"; "mode"] data) (fun d =>
  Ret {| total_steps := dict_get_default d "total_steps" (PInt 1);
         plans := dict_get_default d "plans" (PList []);
         mode := dict_get_default d "mode" (PStr "chat") |}).

Definition AgentPlan_to_json (self : AgentPlan) : string :=
  json_dumps (asdict_AgentPlan self).

Definition AgentPlan_from_json (json_str : string) : outcome AgentPlan :=
  obind (json_loads json_str) new_AgentPlan.

Definition AgentOutput_to_json (self : AgentOutput) : string :=
  json_dumps (asdict_AgentOutput self).

Definition AgentOutput_from_json (json_str : string) : outcome AgentOutput :=
  obind (json_loads json_str) new_AgentOutput.

End MoreSerialisation.


(** ** The engine, over its collaborators *)

(** A tool of the registry, called with the decoded arguments unpacked as
    keyword arguments; what Python does when the arguments are not a
    mapping, or do not fit the signature, is part of the call and so of the
    tool's behaviour here. *)
Definition tool (World : Type) : Type :=
  pyval -> World -> outcome pyval * World.

(** What the engine is run against.  [World] is the outside: the remote
    model, the prompt files, whatever the tools reach. *)
Record collaborators (World : Type) : Type := mkCollaborators {
  (** [client.chat.completions.create], called with the keyword arguments
      of [call_params]: answers or raises. *)
  transport : World -> request -> outcome response * World;
  (** The file [prompts/<name>.md]: [None] when it is absent or reading it
      fails. *)
  prompt_file : World -> string -> option string;
  (** Library functions: [json.loads], [str.strip], [str.lower], and the
      text Python's formatting gives a float, a list or a dict. *)
  json_loads : string -> outcome pyval;
  str_strip : string -> string;
  str_lower : string -> string;
  py_repr : pyval -> string;
  (** [AGENT_TOOLS] of tools.py: for an agent identity, the tool
      declarations sent to the model. *)
  AGENT_TOOLS : list (string * list pyval);
  (** [TOOL_FUNCTIONS] of tools.py. *)
  TOOL_FUNCTIONS : list (string * tool World)
}.

Section Engine.

Variable World : Type.
Variable env : collaborators World.

(** What the engine has done to the world so far: the requests handed to the
    transport, oldest first, and the number of [time.sleep(1)] calls. *)
Record state : Type := mkState {
  world : World;
  sent : list request;
  slept : nat
}.

Definition M (A : Type) : Type := state -> outcome A * state.

Definition ret {A} (a : A) : M A := fun st => (Ret a, st).

Definition bind {A B} (c : M A) (k : A -> M B) : M B :=
  fun st =>
    match c st with
    | (Ret a, st') => k a st'
    | (Raise e, st') => (Raise e, st')
    end.

Definition lift {A} (o : outcome A) : M A := fun st => (o, st).

(** [try: c  except Exception as e: h e]. *)
Definition try_except {A} (c : M A) (h : exn -> M A) : M A :=
  fun st =>
    match c st with
    | (Ret a, st') => (Ret a, st')
    | (Raise e, st') => h e st'
    end.

Notation "x <- c ;; k" := (bind c (fun x => k))
  (at level 61, c at next level, right associativity).
Notation "' pat <- c ;; k" := (bind c (fun x => match x with pat => k end))
  (at level 61, pat pattern, c at next level, right associativity).

Definition run_tool (f : tool World) (args : pyval) : M pyval :=
  fun st =>
    let (r, w) := f args (world st) in
    (r, {| world := w; sent := sent st; slept := slept st |}).

Fixpoint assoc {V} (l : list (string * V)) (k : string) : option V :=
  match l with
  | [] => None
  | (k', v) :: rest => if String.eqb k' k then Some v else assoc rest k
  end.

(** *** Language model gateway *)

Definition call_transport (req : request) : M response :=
  fun st =>
    let (r, w) := transport env (world st) req in
    (r, {| world := w; sent := (sent st ++ [req])%list; slept := slept st |}).

Definition sleep : M unit :=
  fun st => (Ret tt, {| world := world st; sent := sent st; slept := S (slept st) |}).

(** [if tools:] adds the declarations only when the list is not empty. *)
Definition call_params (messages : list message) (tools : option (list pyval))
    : request :=
  {| req_messages := messages;
     req_tools := match tools with
                  | Some (t :: ts) => Some (t :: ts)
                  | _ => None
                  end |}.

(** The loop [for attempt in range(max_retries + 1)], [remaining] rounds
    from round [attempt] on.  Every exception class is handled alike: give
    up with [None] on the last round, sleep and go on otherwise. *)
Fixpoint retry_loop (remaining : nat) (attempt : Z) (messages : list message)
    (tools : option (list pyval)) (max_retries : Z) : M (option response) :=
  match remaining with
  | O => ret None
  | S k =>
      try_except
        (r <- call_transport (call_params messages tools) ;; ret (Some r))
        (fun _ =>
           if attempt =? max_retries then ret None
           else (_ <- sleep ;;
                 retry_loop k (attempt + 1) messages tools max_retries))
  end.

Definition safe_llm_call_with_retry (messages : list message)
    (tools : option (list pyval)) (max_retries : Z) : M (option response) :=
  retry_loop (Z.to_nat (max_retries + 1)) 0 messages tools max_retries.

(** *** Tool invocation resolver *)

(** The three texts the resolver puts in the place of a tool's result. *)
Definition unknown_tool_text (function_name : string) : pyval :=
  PStr ("오류: 알 수 없는 도구 '" ++ function_name ++ "'").

Definition decode_failure_text (function_name : string) : pyval :=
  PStr ("오류: " ++ function_name ++ "의 인자 파싱 실패").

Definition tool_failure_text (function_name : string) (e : exn) : pyval :=
  PStr ("오류: " ++ function_name ++ " 실행 중 오류 발생 - " ++ exn_msg e).

(** One round of the loop over [message.tool_calls]: the content of the
    follow-up message for [tc]. *)
Definition call_result (available_tools : list (string * tool World))
    (tc : tool_call) : M pyval :=
  let function_name := tc_name tc in
  try_except
    (function_args <- lift (json_loads env (tc_arguments tc)) ;;
     match assoc available_tools function_name with
     | Some f => run_tool f function_args
     | None => ret (unknown_tool_text function_name)
     end)
    (fun e =>
       match exn_kind e with
       | JSONDecodeError => ret (decode_failure_text function_name)
       | _ => ret (tool_failure_text function_name e)
       end).

Fixpoint run_tool_calls (available_tools : list (string * tool World))
    (calls : list tool_call) : M (list message) :=
  match calls with
  | [] => ret []
  | tc :: rest =>
      function_response <- call_result available_tools tc ;;
      msgs <- run_tool_calls available_tools rest ;;
      ret (ToolMsg (tc_id tc) function_response :: msgs)
  end.

Definition execute_tools_if_needed (resp : response)
    (available_tools : list (string * tool World)) : M (string * list message) :=
  match resp_tool_calls resp with
  | Some (tc :: rest) =>
      let calls := tc :: rest in
      msgs <- run_tool_calls available_tools calls ;;
      ret (or_default (resp_content resp) "",
           AssistantMsg (resp_content resp) calls :: msgs)
  | _ => ret (or_default (resp_content resp) "", [])
  end.

(** *** Template store *)

(** [load_prompt]: the file's text, or the generic prompt when the file is
    absent or reading it raises. *)
Definition load_prompt (agent_name : string) : M string :=
  fun st =>
    (Ret match prompt_file env (world st) agent_name with
         | Some prompt_content => prompt_content
         | None => "당신은 " ++ agent_name
                   ++ " 에이전트입니다. 사용자의 요청에 도움이 되는 응답을 제공해주세요."
         end, st).

(** *** Context assembler *)

Definition nl : string := String (ascii_of_nat 10) "".
Definition dq : string := String (ascii_of_nat 34) "".

(** The text an f-string gives a value. *)
Definition fmt (v : pyval) : string :=
  match v with
  | PStr s => s
  | PNone => "None"
  | PBool true => "True"
  | PBool false => "False"
  | PInt z => decimal z
  | _ => py_repr env v
  end.

(** [v[:n]]. *)
Definition py_slice_to (n : nat) (v : pyval) : outcome pyval :=
  match v with
  | PStr s => Ret (PStr (utf8_take n s))
  | PList l => Ret (PList (firstn n l))
  | _ => Raise (mkExn TypeError "object is not subscriptable")
  end.

(** [len(v)]. *)
Definition py_len (v : pyval) : outcome nat :=
  match v with
  | PStr s => Ret (utf8_len s)
  | PList l => Ret (List.length l)
  | PDict d => Ret (List.length d)
  | _ => Raise (mkExn TypeError "object has no len()")
  end.

Fixpoint user_info_lines (items : pydict) : string :=
  match items with
  | [] => ""
  | (key, value) :: rest =>
      "- " ++ key ++ ": " ++ fmt value ++ nl ++ user_info_lines rest
  end.

Fixpoint chat_lines (recent_chats : list pydict) : outcome string :=
  match recent_chats with
  | [] => Ret ""
  | chat :: rest =>
      obind (dict_item chat "role") (fun role =>
      let role_name := if eq_str role "user" then "사용자" else "AI" in
      obind (dict_item chat "content") (fun content =>
      obind (py_slice_to 100 content) (fun head =>
      obind (py_len content) (fun n =>
      obind (chat_lines rest) (fun lines =>
      Ret ("- " ++ role_name ++ ": " ++ fmt head
           ++ (if (100 <? n)%nat then "..." else "") ++ nl ++ lines))))))
  end.

(** The loop over [enumerate(agent_ctx.agent_output)], from index [i]. *)
Fixpoint output_lines (history : list pyval) (i : nat)
    (outputs : list AgentOutput) : string :=
  match outputs with
  | [] => ""
  | o :: rest =>
      let agent_name :=
        match nth_error history i with
        | Some v => fmt v
        | None => "Agent" ++ decimal (Z.of_nat i)
        end in
      "- " ++ agent_name ++ ": " ++ progress_description o ++ nl
      ++ "  결과: " ++ utf8_take 200 (output o)
      ++ (if (200 <? utf8_len (output o))%nat then "..." else "") ++ nl
      ++ output_lines history (S i) rest
  end.

(** The arguments of [str.join]: every one must be a string. *)
Fixpoint str_items (l : list pyval) : outcome (list string) :=
  match l with
  | [] => Ret []
  | PStr s :: rest => obind (str_items rest) (fun ss => Ret (s :: ss))
  | _ :: _ => Raise (mkExn TypeError "sequence item: expected str instance")
  end.

Definition create_context_prompt (user_ctx : UserContexts)
    (agent_ctx : AgentContexts) (base_prompt : string) : outcome string :=
  let context_info := nl ++ nl ++ "=== 컨텍스트 정보 ===" ++ nl in
  let context_info :=
    match user_info user_ctx with
    | [] => context_info
    | items => context_info ++ nl ++ "【사용자 정보】" ++ nl ++ user_info_lines items
    end in
  obind
    match chat_history user_ctx with
    | [] => Ret context_info
    | history =>
        let recent_chats := skipn (List.length history - 5) history in
        obind (chat_lines recent_chats) (fun lines =>
        Ret (context_info ++ nl ++ "【최근 대화 기록】" ++ nl ++ lines))
    end (fun context_info =>
  let context_info :=
    match agent_output agent_ctx with
    | [] => context_info
    | outputs =>
        context_info ++ nl ++ "【이전 에이전트 작업 결과】" ++ nl
        ++ output_lines (agent_id_history agent_ctx) 0 outputs
    end in
  let context_info :=
    context_info ++ nl ++ "【작업 진행 상황】" ++ nl
    ++ "- 현재 단계: " ++ decimal (current_step agent_ctx + 1) ++ "/"
    ++ fmt (total_step agent_ctx) ++ nl in
  obind
    match agent_id_history agent_ctx with
    | [] => Ret "없음"
    | names => obind (str_items names) (fun ss => Ret (join ", " ss))
    end (fun done =>
  let context_info := context_info ++ "- 완료된 에이전트: " ++ done ++ nl in
  Ret (base_prompt ++ context_info ++ nl ++ nl
       ++ "위 정보를 참고하여 사용자의 요청에 적절히 응답해주세요."))).

(** *** Agent runner *)

(** The scan of [reversed(user_ctx.chat_history)] for the latest turn whose
    role is user; the empty string when there is none. *)
Fixpoint scan_user_message (reversed_history : list pydict) : outcome pyval :=
  match reversed_history with
  | [] => Ret (PStr "")
  | chat :: rest =>
      obind (dict_item chat "role") (fun role =>
      if eq_str role "user" then dict_item chat "content"
      else scan_user_message rest)
  end.

Definition last_user_message (user_ctx : UserContexts) : outcome pyval :=
  scan_user_message (rev (chat_history user_ctx)).

(** [AGENT_TOOLS.get(agent_name, [])]. *)
Definition agent_tools (agent_name : string) : list pyval :=
  match assoc (AGENT_TOOLS env) agent_name with
  | Some l => l
  | None => []
  end.

Definition unavailable_output (agent_name : string) : AgentOutput :=
  {| final_output := true;
     progress_description := agent_name ++ " 실행 실패";
     output := "죄송합니다. 현재 서비스에 일시적인 문제가 발생했습니다. 잠시 후 다시 시도해주세요." |}.

Definition fault_output (agent_name : string) : AgentOutput :=
  {| final_output := true;
     progress_description := agent_name ++ " 실행 중 오류 발생";
     output := "죄송합니다. " ++ agent_name
               ++ " 실행 중 오류가 발생했습니다. 다시 시도해주세요." |}.

(** What [execute_agent] does once the first model call has answered. *)
Definition finish_turn (agent_name : string) (agent_ctx : AgentContexts)
    (messages : list message) (resp : response) : M AgentOutput :=
  ' (content, additional_messages) <-
      execute_tools_if_needed resp (TOOL_FUNCTIONS env) ;;
  final_content <-
    match additional_messages with
    | [] => ret (Some content)
    | _ =>
        let final_messages := (messages ++ additional_messages)%list in
        final_response <- safe_llm_call_with_retry final_messages None 2 ;;
        match final_response with
        | Some r => ret (resp_content r)
        | None =>
            ret (Some (or_default (Some content)
                         "도구 실행은 완료되었지만 최종 응답 생성에 실패했습니다."))
        end
    end ;;
  is_final <- lift (int_ge (current_step agent_ctx + 1) (total_step agent_ctx)) ;;
  ret {| final_output := is_final;
         progress_description := agent_name ++ "의 작업 완료";
         output := or_default final_content "응답을 생성할 수 없습니다." |}.

(** The messages of the first model call. *)
Definition first_messages (agent_name : string) (user_ctx : UserContexts)
    (agent_ctx : AgentContexts) : M (list message) :=
  base_prompt <- load_prompt (str_lower env agent_name) ;;
  complete_prompt <- lift (create_context_prompt user_ctx agent_ctx base_prompt) ;;
  last <- lift (last_user_message user_ctx) ;;
  ret [Msg "system" (PStr complete_prompt); Msg "user" last].

(** The tool declarations of the first call:
    [available_tools if available_tools else None]. *)
Definition first_tools (agent_name : string) : option (list pyval) :=
  match agent_tools agent_name with
  | [] => None
  | l => Some l
  end.

(** The [try] block of [execute_agent]. *)
Definition execute_agent_body (agent_name : string) (user_ctx : UserContexts)
    (agent_ctx : AgentContexts) : M AgentOutput :=
  messages <- first_messages agent_name user_ctx agent_ctx ;;
  response <- safe_llm_call_with_retry messages (first_tools agent_name) 2 ;;
  match response with
  | None => ret (unavailable_output agent_name)
  | Some resp => finish_turn agent_name agent_ctx messages resp
  end.

Definition execute_agent (agent_name : string) (user_ctx : UserContexts)
    (agent_ctx : AgentContexts) : M AgentOutput :=
  try_except (execute_agent_body agent_name user_ctx agent_ctx)
    (fun _ => ret (fault_output agent_name)).

Definition execute_bibi := execute_agent "비비".
Definition execute_kiki := execute_agent "키키".
Definition execute_ager := execute_agent "아거".
Definition execute_ramu := execute_agent "라무".
Definition execute_coli := execute_agent "콜리".

Definition executor : Type := UserContexts -> AgentContexts -> M AgentOutput.

Definition AGENT_EXECUTORS : list (string * executor) :=
  [ ("비비", execute_bibi); ("키키", execute_kiki); ("아거", execute_ager);
    ("라무", execute_ramu); ("콜리", execute_coli) ].

(** *** Planner *)

Definition quoted (s : string) : string := dq ++ s ++ dq.

Definition plan_request (last_user_message : pyval) : string :=
  nl ++ "사용자 요청: " ++ quoted (fmt last_user_message) ++ nl
  ++ nl
  ++ "위 요청을 분석하여 적절한 작업 계획(PLAN)을 수립해주세요." ++ nl
  ++ "데모 환경이므로 최대 3단계까지만 계획하고, 주로 Chat 모드를 사용해주세요." ++ nl
  ++ nl
  ++ "JSON 형식으로 응답해주세요:" ++ nl
  ++ "{" ++ nl
  ++ "    " ++ quoted "total_steps" ++ ": 숫자," ++ nl
  ++ "    " ++ quoted "plans" ++ ": [" ++ nl
  ++ "        {" ++ nl
  ++ "            " ++ quoted "agent_name" ++ ": " ++ quoted "에이전트명" ++ "," ++ nl
  ++ "            " ++ quoted "description" ++ ": " ++ quoted "구체적인 작업 설명" ++ ", " ++ nl
  ++ "            " ++ quoted "tool_recommendation" ++ ": [" ++ quoted "도구1" ++ ", "
  ++ quoted "도구2" ++ "]" ++ nl
  ++ "        }" ++ nl
  ++ "    ]," ++ nl
  ++ "    " ++ quoted "mode" ++ ": " ++ quoted "chat" ++ nl
  ++ "}" ++ nl.

(** A plan of one step, as the three fallback branches build it. *)
Definition single_step_plan (agent_name description : string) : AgentPlan :=
  {| total_steps := PInt 1;
     plans := PList [PDict [ ("agent_name", PStr agent_name);
                             ("description", PStr description);
                             ("tool_recommendation", PList []) ]];
     mode := PStr "chat" |}.

(** [response_content[json_start:json_end].strip()], where [json_start] is
    just behind the first occurrence of [marker] and [json_end] the next
    occurrence of three backquotes; [find] answers -1 when there is none,
    and the slice then stops before the last character. *)
Definition between_fences (marker response_content : string) : string :=
  match String.index 0 marker response_content with
  | Some i =>
      let rest := skip (i + String.length marker) response_content in
      str_strip env match String.index 0 "```" rest with
                | Some j => String.substring 0 j rest
                | None => utf8_drop_last rest
                end
  | None => response_content
  end.

Definition strip_code_fence (response_content : string) : string :=
  if contains "```json" response_content then
    between_fences "```json" response_content
  else if contains "```" response_content then
    between_fences "```" response_content
  else response_content.

(** The inner [try] block: decode the response into a plan. *)
Definition decode_plan (resp : response) : outcome AgentPlan :=
  match resp_content resp with
  | None => Raise (mkExn TypeError "argument of type 'NoneType' is not iterable")
  | Some response_content =>
      obind (json_loads env (strip_code_fence response_content)) (fun plan_data =>
      obind (py_get plan_data "total_steps" (PInt 1)) (fun ts =>
      obind (py_get plan_data "plans" (PList [])) (fun ps =>
      obind (py_get plan_data "mode" (PStr "chat")) (fun md =>
      Ret {| total_steps := ts; plans := ps; mode := md |}))))
  end.

(** The handler of [except (json.JSONDecodeError, KeyError)]: the first
    identity keyword found in the raw response text. *)
Definition keyword_plan (resp : response) : outcome AgentPlan :=
  match resp_content resp with
  | None => Raise (mkExn TypeError "argument of type 'NoneType' is not iterable")
  | Some text =>
      let agent_name :=
        if contains "키키" text then "키키"
        else if contains "아거" text then "아거"
        else if contains "라무" text then "라무"
        else if contains "콜리" text then "콜리"
        else "비비" in
      Ret (single_step_plan agent_name "사용자 요청 처리")
  end.

Definition plan_of_response (resp : response) : outcome AgentPlan :=
  match decode_plan resp with
  | Ret plan => Ret plan
  | Raise e =>
      match exn_kind e with
      | JSONDecodeError | KeyError => keyword_plan resp
      | _ => Raise e
      end
  end.

(** The outer [try] block of [execute_manager]. *)
Definition execute_manager_body (user_ctx : UserContexts)
    (agent_ctx : AgentContexts) : M AgentPlan :=
  base_prompt <- load_prompt "manager" ;;
  last <- lift (last_user_message user_ctx) ;;
  complete_prompt <- lift (create_context_prompt user_ctx agent_ctx base_prompt) ;;
  let messages := [ Msg "system" (PStr complete_prompt);
                    Msg "user" (PStr (plan_request last)) ] in
  response <- safe_llm_call_with_retry messages None 2 ;;
  match response with
  | None => ret (single_step_plan "비비" "사용자 요청에 대한 기본적인 응답 제공")
  | Some resp => lift (plan_of_response resp)
  end.

Definition execute_manager (user_ctx : UserContexts)
    (agent_ctx : AgentContexts) : M AgentPlan :=
  try_except (execute_manager_body user_ctx agent_ctx)
    (fun _ => ret (single_step_plan "비비" "오류 상황에서의 기본 응답")).

(** *** Plan executor *)

(** [agent_name in AGENT_EXECUTORS] and, when it holds,
    [AGENT_EXECUTORS[agent_name]]: the look-up hashes the name first. *)
Definition find_executor (agent_name : pyval) : outcome (option executor) :=
  match agent_name with
  | PStr s => Ret (assoc AGENT_EXECUTORS s)
  | PList _ | PDict _ => Raise (mkExn TypeError "unhashable type")
  | _ => Ret None
  end.

(** One round of the loop over [plan.plans]. *)
Definition run_step (user_ctx : UserContexts) (agent_ctx : AgentContexts)
    (step_plan : pyval) : M AgentContexts :=
  agent_name <- lift (py_getitem step_plan "agent_name") ;;
  description <- lift (py_getitem step_plan "description") ;;
  found <- lift (find_executor agent_name) ;;
  result <- match found with
            | Some run => run user_ctx agent_ctx
            | None => execute_bibi user_ctx agent_ctx
            end ;;
  ret (add_agent_result agent_ctx agent_name result).

Fixpoint run_steps (user_ctx : UserContexts) (agent_ctx : AgentContexts)
    (steps : list pyval) : M AgentContexts :=
  match steps with
  | [] => ret agent_ctx
  | step_plan :: rest =>
      agent_ctx' <- run_step user_ctx agent_ctx step_plan ;;
      run_steps user_ctx agent_ctx' rest
  end.

Definition fresh_context (plan : AgentPlan) : AgentContexts :=
  {| agent_id_history := [];
     total_step := total_steps plan;
     current_step := 0;
     agent_output := [] |}.

Definition execute_plan (plan : AgentPlan) (user_ctx : UserContexts)
    : M AgentContexts :=
  steps <- lift (py_iter (plans plan)) ;;
  run_steps user_ctx (fresh_context plan) steps.

End Engine.

(** ** The retry helper of the tools (tools.py) *)

Section Tools.

Variable World : Type.
Variable A : Type.

(** A call [func()]: it acts on the world and answers or raises. *)
Definition run_func (func : World -> outcome A * World) : M World A :=
  fun st =>
    let (r, w) := func (world st) in
    (r, {| world := w; sent := sent st; slept := slept st |}).

(** [time.sleep(delay)], for a whole number of seconds. *)
Definition sleep_for (delay : nat) : M World unit :=
  fun st =>
    (Ret tt, {| world := world st; sent := sent st;
                slept := (slept st + delay)%nat |}).

(** The loop [for attempt in range(max_retries + 1)] of
    [safe_request_with_retry], [remaining] rounds from round [attempt]
    on. *)
Fixpoint request_loop (remaining : nat) (attempt : Z)
    (func : World -> outcome A * World) (max_retries : Z) (delay : nat)
    : M World (option A) :=
  match remaining with
  | O => ret None
  | S k =>
      try_except
        (bind (run_func func) (fun r => ret (Some r)))
        (fun _ =>
           if attempt =? max_retries then ret None
           else bind (sleep_for delay) (fun _ =>
                request_loop k (attempt + 1) func max_retries delay))
  end.

(** [safe_request_with_retry(func, max_retries, delay)]; [None] stands
    for the [None] returned when every attempt failed. *)
Definition safe_request_with_retry (func : World -> outcome A * World)
    (max_retries : Z) (delay : nat) : M World (option A) :=
  request_loop (Z.to_nat (max_retries + 1)) 0 func max_retries delay.

(** [func], called again and again from world [w], raises [k] times and
    then returns [a], leaving world [w']. *)
Inductive fails_then_returns (func : World -> outcome A * World) (a : A)
    : nat -> World -> World -> Prop :=
| returns_now : forall w w',
    func w = (Ret a, w') ->
    fails_then_returns func a O w w'
| fails_once_more : forall k w w1 w' e,
    func w = (Raise e, w1) ->
    fails_then_returns func a k w1 w' ->
    fails_then_returns func a (S k) w w'.

(** [func] raises at each of [k] calls in a row from world [w], leaving
    world [w']. *)
Inductive fails_times (func : World -> outcome A * World)
    : nat -> World -> World -> Prop :=
| fails_no_more : forall w, fails_times func O w w
| fails_again : forall k w w1 w' e,
    func w = (Raise e, w1) ->
    fails_times func k w1 w' ->
    fails_times func (S k) w w'.

End Tools.


(** ** A reference JSON codec

    A decoder and an encoder for JSON without fractions, exponents,
    non-finite numbers and backslash-u escapes, to run the engine on
    concrete texts.  A text outside that fragment is answered with
    [unsupported], which is not a decode error.  The theorems about the
    engine hold for every decoder; only concrete runs use this one. *)

Module RefJson.

Definition bad {A} (msg : string) : outcome A :=
  Raise (mkExn JSONDecodeError msg).

Definition unsupported {A} : outcome A :=
  Raise (mkExn OtherException "outside the fragment of the reference decoder").

Definition is_ws (c : ascii) : bool :=
  match nat_of_ascii c with
  | 9%nat | 10%nat | 13%nat | 32%nat => true
  | _ => false
  end.

Fixpoint skip_ws (s : string) : string :=
  match s with
  | String c r => if is_ws c then skip_ws r else s
  | EmptyString => EmptyString
  end.

Definition is_digit (c : ascii) : bool :=
  let n := nat_of_ascii c in (48 <=? n)%nat && (n <=? 57)%nat.

(** The digits at the head of [s], as a number, and what follows them. *)
Fixpoint digits (acc : Z) (s : string) : Z * string :=
  match s with
  | String c r =>
      if is_digit c then digits (10 * acc + Z.of_nat (nat_of_ascii c - 48)) r
      else (acc, s)
  | EmptyString => (acc, s)
  end.

(** A fraction or an exponent follows. *)
Definition number_goes_on (s : string) : bool :=
  match s with
  | String c _ =>
      match nat_of_ascii c with
      | 46%nat | 69%nat | 101%nat => true
      | _ => false
      end
  | EmptyString => false
  end.

(** An integer literal; a zero is followed by no further digit. *)
Definition parse_int (s : string) : outcome (Z * string) :=
  let (neg, body) :=
    match s with
    | String "-" r => (true, r)
    | _ => (false, s)
    end in
  match body with
  | String c r =>
      if is_digit c then
        let (n, rest) := if Ascii.eqb c "0" then (0, r) else digits 0 body in
        if number_goes_on rest then unsupported
        else Ret (if neg then - n else n, rest)
      else if String.prefix "NaN" body || String.prefix "Infinity" body
      then unsupported
      else bad "Expecting value"
  | EmptyString => bad "Expecting value"
  end.

(** The characters of a string literal, behind its opening quote. *)
Fixpoint parse_chars (s : string) (acc : string) : outcome (string * string) :=
  match s with
  | EmptyString => bad "Unterminated string"
  | String c r =>
      match nat_of_ascii c with
      | 34%nat => Ret (acc, r)
      | 92%nat =>
          match r with
          | String e r' =>
              let put x := parse_chars r' (acc ++ String (ascii_of_nat x) "") in
              match nat_of_ascii e with
              | 34%nat => put 34%nat
              | 92%nat => put 92%nat
              | 47%nat => put 47%nat
              | 98%nat => put 8%nat
              | 102%nat => put 12%nat
              | 110%nat => put 10%nat
              | 114%nat => put 13%nat
              | 116%nat => put 9%nat
              | 117%nat => unsupported
              | _ => bad "Invalid escape"
              end
          | EmptyString => bad "Unterminated string"
          end
      | n =>
          if (n <? 32)%nat then bad "Invalid control character"
          else parse_chars r (acc ++ String c "")
      end
  end.

(** [d[k] = v] on a dict: a key already present keeps its place. *)
Fixpoint dict_set (d : pydict) (k : string) (v : pyval) : pydict :=
  match d with
  | [] => [(k, v)]
  | (k', v') :: rest =>
      if String.eqb k' k then (k, v) :: rest else (k', v') :: dict_set rest k v
  end.

Definition literal (word : string) (v : pyval) (s : string)
    : option (pyval * string) :=
  if String.prefix word s then Some (v, skip (String.length word) s) else None.

Fixpoint parse_value (fuel : nat) (s : string) {struct fuel}
    : outcome (pyval * string) :=
  match fuel with
  | O => unsupported
  | S f =>
      match skip_ws s with
      | EmptyString => bad "Expecting value"
      | String c r as t =>
          match nat_of_ascii c with
          | 123%nat =>
              match skip_ws r with
              | String "}" r' => Ret (PDict [], r')
              | _ => parse_members f r []
              end
          | 91%nat =>
              match skip_ws r with
              | String "]" r' => Ret (PList [], r')
              | _ => parse_elements f r []
              end
          | 34%nat =>
              obind (parse_chars r "") (fun sr => Ret (PStr (fst sr), snd sr))
          | _ =>
              match literal "true" (PBool true) t,
                    literal "false" (PBool false) t,
                    literal "null" PNone t with
              | Some vr, _, _ | _, Some vr, _ | _, _, Some vr => Ret vr
              | None, None, None =>
                  obind (parse_int t) (fun zr => Ret (PInt (fst zr), snd zr))
              end
          end
      end
  end
with parse_elements (fuel : nat) (s : string) (acc : list pyval) {struct fuel}
    : outcome (pyval * string) :=
  match fuel with
  | O => unsupported
  | S f =>
      obind (parse_value f s) (fun vr =>
      match skip_ws (snd vr) with
      | String "," r' => parse_elements f r' (acc ++ [fst vr])%list
      | String "]" r' => Ret (PList (acc ++ [fst vr])%list, r')
      | _ => bad "Expecting ',' delimiter"
      end)
  end
with parse_members (fuel : nat) (s : string) (acc : pydict) {struct fuel}
    : outcome (pyval * string) :=
  match fuel with
  | O => unsupported
  | S f =>
      match skip_ws s with
      | String c r =>
          if Ascii.eqb c (ascii_of_nat 34) then
            obind (parse_chars r "") (fun kr =>
            match skip_ws (snd kr) with
            | String ":" r2 =>
                obind (parse_value f r2) (fun vr =>
                match skip_ws (snd vr) with
                | String "," r4 =>
                    parse_members f r4 (dict_set acc (fst kr) (fst vr))
                | String "}" r4 =>
                    Ret (PDict (dict_set acc (fst kr) (fst vr)), r4)
                | _ => bad "Expecting ',' delimiter"
                end)
            | _ => bad "Expecting ':' delimiter"
            end)
          else bad "Expecting property name enclosed in double quotes"
      | EmptyString => bad "Expecting property name enclosed in double quotes"
      end
  end.

(** [json.loads] on the fragment: one value, then white space only. *)
Definition loads (s : string) : outcome pyval :=
  obind (parse_value (S (String.length s)) s) (fun vr =>
  match skip_ws (snd vr) with
  | EmptyString => Ret (fst vr)
  | _ => bad "Extra data"
  end).

Definition hex_digit (n : nat) : ascii :=
  if (n <? 10)%nat then ascii_of_nat (48 + n) else ascii_of_nat (87 + n).

Definition backslash : ascii := ascii_of_nat 92.

(** The characters of a string as [json.dumps] writes them with
    [ensure_ascii=False]: the quote, the backslash and the control
    characters escaped, everything else as it is. *)
Fixpoint escape (s : string) : string :=
  match s with
  | EmptyString => EmptyString
  | String c r =>
      match nat_of_ascii c with
      | 34%nat => String backslash (String (ascii_of_nat 34) (escape r))
      | 92%nat => String backslash (String backslash (escape r))
      | 10%nat => String backslash (String "n" (escape r))
      | 13%nat => String backslash (String "r" (escape r))
      | 9%nat => String backslash (String "t" (escape r))
      | 8%nat => String backslash (String "b" (escape r))
      | 12%nat => String backslash (String "f" (escape r))
      | n =>
          if (n <? 32)%nat then
            String backslash
              (String "u" (String "0" (String "0"
                 (String (hex_digit (n / 16)) (String (hex_digit (n mod 16))
                    (escape r))))))
          else String c (escape r)
      end
  end.

Definition quote (s : string) : string :=
  String (ascii_of_nat 34) (escape s ++ String (ascii_of_nat 34) "").

Fixpoint spaces (n : nat) : string :=
  match n with
  | O => ""
  | S k => " " ++ spaces k
  end.

Definition newline : string := String (ascii_of_nat 10) "".

(** [json.dumps(v, ensure_ascii=False, indent=2)] at nesting depth
    [level].  Floats are outside the fragment: each is written as [NaN],
    which [loads] answers with [unsupported]. *)
Fixpoint dumps_at (level : nat) (v : pyval) : string :=
  match v with
  | PNone => "null"
  | PBool true => "true"
  | PBool false => "false"
  | PInt z => decimal z
  | PFloat _ => "NaN"
  | PStr s => quote s
  | PList [] => "[]"
  | PList (x :: xs) =>
      "[" ++ newline ++ spaces (2 * S level) ++ dumps_at (S level) x
      ++ (fix tail (l : list pyval) : string :=
            match l with
            | [] => ""
            | y :: ys =>
                "," ++ newline ++ spaces (2 * S level) ++ dumps_at (S level) y
                ++ tail ys
            end) xs
      ++ newline ++ spaces (2 * level) ++ "]"
  | PDict [] => "{}"
  | PDict ((k, x) :: xs) =>
      "{" ++ newline ++ spaces (2 * S level) ++ quote k ++ ": "
      ++ dumps_at (S level) x
      ++ (fix tail (l : list (string * pyval)) : string :=
            match l with
            | [] => ""
            | (k', y) :: ys =>
                "," ++ newline ++ spaces (2 * S level) ++ quote k' ++ ": "
                ++ dumps_at (S level) y ++ tail ys
            end) xs
      ++ newline ++ spaces (2 * level) ++ "}"
  end.

Definition dumps (v : pyval) : string := dumps_at 0 v.

End RefJson.

(** ** Properties the claims speak of *)

(** The invariant of AgentContexts: both histories as long as
    [current_step] says. *)
Definition invariant (c : AgentContexts) : Prop :=
  List.length (agent_id_history c) = List.length (agent_output c)
  /\ current_step c = Z.of_nat (List.length (agent_id_history c)).

(** [plan.total_steps == len(plan.plans)]. *)
Definition steps_agree (plan : AgentPlan) : Prop :=
  exists n, py_len (plans plan) = Ret n
            /\ eq_int (total_steps plan) (Z.of_nat n) = true.

(** A step the plan executor can run, and its name: a mapping with an
    [agent_name] that can be hashed and a [description]. *)
Definition step_named (step_plan agent_name : pyval) : Prop :=
  py_getitem step_plan "agent_name" = Ret agent_name
  /\ py_hashable agent_name = true
  /\ exists description, py_getitem step_plan "description" = Ret description.

Definition runnable_step (step_plan : pyval) : Prop :=
  exists agent_name, step_named step_plan agent_name.

Definition registered : list string := ["비비"; "키키"; "아거"; "라무"; "콜리"].

(** The identity whose runner takes a step named [agent_name]: the name
    itself when it is one of the five registered, the default otherwise. *)
Definition runner_identity (agent_name : pyval) : string :=
  match agent_name with
  | PStr s =>
      if existsb (String.eqb s) registered then s else "비비"
  | _ => "비비"
  end.

(** The context [c] with further records appended by [add_agent_result]:
    the identities [names] and, alongside, the outputs [outs]. *)
Definition extend (c : AgentContexts) (names : list pyval)
    (outs : list AgentOutput) : AgentContexts :=
  {| agent_id_history := (agent_id_history c ++ names)%list;
     total_step := total_step c;
     current_step := Z.of_nat (List.length (agent_id_history c ++ names)%list);
     agent_output := (agent_output c ++ outs)%list |}.

(** An output built at the end of a turn that ran through: the third
    place where [execute_agent] builds one, next to [unavailable_output]
    and [fault_output]. *)
Definition ran_through (agent_name : string) (o : AgentOutput) : Prop :=
  progress_description o = agent_name ++ "의 작업 완료".

(** What the follow-up message for the call [tc] may hold: the tool's
    result, or one of the three texts put in its place. *)
Inductive resolved {World} (env : collaborators World)
    (registry : list (string * tool World)) (tc : tool_call) : pyval -> Prop :=
| tool_answered : forall args f w w' v,
    json_loads env (tc_arguments tc) = Ret args ->
    assoc registry (tc_name tc) = Some f ->
    f args w = (Ret v, w') ->
    resolved env registry tc v
| tool_unknown : forall args,
    json_loads env (tc_arguments tc) = Ret args ->
    assoc registry (tc_name tc) = None ->
    resolved env registry tc (unknown_tool_text (tc_name tc))
| arguments_undecodable : forall e,
    json_loads env (tc_arguments tc) = Raise e ->
    exn_kind e = JSONDecodeError ->
    resolved env registry tc (decode_failure_text (tc_name tc))
| decoder_raised : forall e,
    json_loads env (tc_arguments tc) = Raise e ->
    exn_kind e <> JSONDecodeError ->
    resolved env registry tc (tool_failure_text (tc_name tc) e)
| tool_raised : forall args f w w' e,
    json_loads env (tc_arguments tc) = Ret args ->
    assoc registry (tc_name tc) = Some f ->
    f args w = (Raise e, w') ->
    exn_kind e <> JSONDecodeError ->
    resolved env registry tc (tool_failure_text (tc_name tc) e)
| tool_raised_decode_error : forall args f w w' e,
    json_loads env (tc_arguments tc) = Ret args ->
    assoc registry (tc_name tc) = Some f ->
    f args w = (Raise e, w') ->
    exn_kind e = JSONDecodeError ->
    resolved env registry tc (decode_failure_text (tc_name tc)).

(** The follow-up message of the call [tc]. *)
Definition follow_up {World} (env : collaborators World)
    (registry : list (string * tool World)) (tc : tool_call) (m : message)
    : Prop :=
  exists v, m = ToolMsg (tc_id tc) v /\ resolved env registry tc v.

(** The transport raises on every request. *)
Definition always_fails {World} (env : collaborators World) : Prop :=
  forall w req, exists e w', transport env w req = (Raise e, w').

(** ** Further properties *)

(** A chat turn as [add_user_message] and [add_assistant_message] build
    it: it has a role, and a text as its content. *)
Definition well_formed_turn (chat : pydict) : Prop :=
  exists role content,
    dict_get chat "role" = Some role
    /\ dict_get chat "content" = Some (PStr content).

(** Every recorded identity is a string. *)
Definition all_strings (l : list pyval) : Prop :=
  Forall (fun v => exists s, v = PStr s) l.

(** A chat turn that is not the user's: it has a role, another one. *)
Definition other_turn (chat : pydict) : Prop :=
  exists role, dict_get chat "role" = Some role /\ eq_str role "user" = false.

(** The first of the planner's keywords found in [text], in the order the
    planner tries them; the default identity when there is none. *)
Definition first_keyword (text : string) : string :=
  match find (fun kw => contains kw text) ["키키"; "아거"; "라무"; "콜리"] with
  | Some kw => kw
  | None => "비비"
  end.



(** The planner got as far as its model call, and the gateway returned
    [resp] from it, leaving state [st']. *)
Definition planner_answered {World} (env : collaborators World)
    (user_ctx : UserContexts) (agent_ctx : AgentContexts) (st : state World)
    (resp : response) (st' : state World) : Prop :=
  exists base_prompt last complete_prompt,
    load_prompt env "manager" st = (Ret base_prompt, st)
    /\ last_user_message user_ctx = Ret last
    /\ create_context_prompt env user_ctx agent_ctx base_prompt
       = Ret complete_prompt
    /\ safe_llm_call_with_retry env
         [ Msg "system" (PStr complete_prompt);
           Msg "user" (PStr (plan_request env last)) ] None 2 st
       = (Ret (Some resp), st').


(** The step [add_plan_step] appends for (name, description) [s] when
    given no tool recommendation. *)
Definition built_step (s : string * string) : pyval :=
  PDict [ ("agent_name", PStr (fst s));
          ("description", PStr (snd s));
          ("tool_recommendation", PList []) ].


(** ** Concrete collaborators, to run the engine *)

Module Demo.

(** The world is the script of what the transport will do, request after
    request; past its end the transport raises a connection error. *)
Definition World : Type := list (outcome response).

Definition connection_error : exn := mkExn APIConnectionError "Connection error.".

Definition scripted (w : World) (req : request) : outcome response * World :=
  match w with
  | [] => (Raise connection_error, [])
  | r :: rest => (r, rest)
  end.

Definition lower_char (c : ascii) : ascii :=
  let n := nat_of_ascii c in
  if (65 <=? n)%nat && (n <=? 90)%nat then ascii_of_nat (n + 32) else c.

(** [str.lower] on texts whose cased letters are ASCII; the five agent
    names have none. *)
Fixpoint lower (s : string) : string :=
  match s with
  | EmptyString => EmptyString
  | String c r => String (lower_char c) (lower r)
  end.

Fixpoint rev_string (s acc : string) : string :=
  match s with
  | EmptyString => acc
  | String c r => rev_string r (String c acc)
  end.

(** The ASCII characters [str.isspace] accepts. *)
Definition is_space (c : ascii) : bool :=
  let n := nat_of_ascii c in
  ((9 <=? n)%nat && (n <=? 13)%nat) || ((28 <=? n)%nat && (n <=? 32)%nat).

Fixpoint lstrip (s : string) : string :=
  match s with
  | String c r => if is_space c then lstrip r else s
  | EmptyString => EmptyString
  end.

(** [str.strip] on texts whose blanks are ASCII. *)
Definition strip (s : string) : string :=
  rev_string (lstrip (rev_string (lstrip s) "")) "".

Definition declaration (name : string) : pyval :=
  PDict [ ("type", PStr "function");
          ("function", PDict [("name", PStr name)]) ].

Definition agent_tools_table : list (string * list pyval) :=
  [ ("키키", map declaration
              ["get_latest_news"; "get_major_movers"; "get_market_indicators"]);
    ("아거", map declaration
              ["search_stock_code"; "get_stock_price"; "analyze_stock_pattern";
               "get_company_info"]);
    ("라무", map declaration ["generate_scenarios"]) ].

(** Two tools stand for the registry: one answers, one raises. *)
Definition registry : list (string * tool World) :=
  [ ("get_latest_news", fun _ w => (Ret (PStr "[]"), w));
    ("get_stock_price",
     fun _ w => (Raise (mkExn OtherException "timed out"), w)) ].

(** The text of [repr] only ends up in prompts; the encoder stands in. *)
Definition env : collaborators World :=
  {| transport := scripted;
     prompt_file := fun _ _ => None;
     json_loads := RefJson.loads;
     str_strip := strip;
     str_lower := lower;
     py_repr := RefJson.dumps;
     AGENT_TOOLS := agent_tools_table;
     TOOL_FUNCTIONS := registry |}.

Definition start (w : World) : state World :=
  {| world := w; sent := []; slept := O |}.

(** A model that is down: request number [n] fails with a connection
    error, a rate-limit rejection or a generic API error in turn. *)
Definition failure (n : nat) : exn :=
  match Nat.modulo n 3 with
  | O => mkExn APIConnectionError "Connection error."
  | S O => mkExn RateLimitError "Rate limit reached"
  | _ => mkExn APIError "Internal server error"
  end.

Definition down : collaborators nat :=
  {| transport := fun n _ => (Raise (failure n), S n);
     prompt_file := fun _ _ => None;
     json_loads := RefJson.loads;
     str_strip := strip;
     str_lower := lower;
     py_repr := RefJson.dumps;
     AGENT_TOOLS := agent_tools_table;
     TOOL_FUNCTIONS := [] |}.

Definition text_reply (s : string) : outcome response :=
  Ret {| resp_content := Some s; resp_tool_calls := None |}.

Definition user_says (s : string) : UserContexts :=
  {| user_info := [("name", PStr "김투자")];
     chat_history := [[ ("role", PStr "user"); ("content", PStr s);
                        ("timestamp", PStr "2025-01-01T00:00:00");
                        ("progress", PNone) ]] |}.

Definition step (agent_name description : string) : pyval :=
  PDict [ ("agent_name", PStr agent_name);
          ("description", PStr description);
          ("tool_recommendation", PList []) ].

(** Plans and runs used as concrete inputs below. *)

(** Two steps, announced as two; run while the model is down. *)
Definition two_step_plan : AgentPlan :=
  {| total_steps := PInt 2;
     plans := PList [step "비비" "인사"; step "키키" "뉴스"];
     mode := PStr "chat" |}.

Definition two_step_run : outcome AgentContexts * state World :=
  execute_plan env two_step_plan (user_says "x") (start []).

Definition two_step_result : AgentContexts :=
  {| agent_id_history := [PStr "비비"; PStr "키키"];
     total_step := PInt 2;
     current_step := 2;
     agent_output := [unavailable_output "비비"; unavailable_output "키키"] |}.

(** One step, announced as three: the text a model may answer the planner
    with, the plan decoded from it, and the plan run with a model that
    answers. *)
Definition overstated_reply : string :=
  "{" ++ quoted "total_steps" ++ ": 3, " ++ quoted "plans" ++ ": [{"
  ++ quoted "agent_name" ++ ": " ++ quoted "비비" ++ ", "
  ++ quoted "description" ++ ": " ++ quoted "답변" ++ "}]}".

Definition overstated_plan : AgentPlan :=
  {| total_steps := PInt 3;
     plans := PList [PDict [ ("agent_name", PStr "비비");
                              ("description", PStr "답변") ]];
     mode := PStr "chat" |}.

Definition overstated_run : outcome AgentContexts * state World :=
  execute_plan env overstated_plan (user_says "x") (start [text_reply "hello"]).

Definition overstated_result : AgentContexts :=
  {| agent_id_history := [PStr "비비"];
     total_step := PInt 3;
     current_step := 1;
     agent_output := [ {| final_output := false;
                          progress_description := "비비의 작업 완료";
                          output := "hello" |} ] |}.

(** A step without its description. *)
Definition incomplete_plan : AgentPlan :=
  {| total_steps := PInt 1;
     plans := PList [PDict [("agent_name", PStr "비비")]];
     mode := PStr "chat" |}.

(** A context whose [total_step] is a string, as a decoded plan may
    announce it. *)
Definition text_total_context : AgentContexts :=
  {| agent_id_history := [];
     total_step := PStr "3";
     current_step := 0;
     agent_output := [] |}.


(** The context of a session before any plan: the class defaults. *)
Definition idle_context : AgentContexts :=
  {| agent_id_history := [];
     total_step := PInt 1;
     current_step := 0;
     agent_output := [] |}.

(** The messages of the first model call of the first turn of
    [two_step_plan]. *)
Definition bibi_messages : list message :=
  Eval vm_compute in
    match fst (first_messages env "비비" (user_says "x")
                 (fresh_context two_step_plan) (start [])) with
    | Ret messages => messages
    | Raise _ => []
    end.

Definition after_three_attempts : state World :=
  {| world := [];
     sent := repeat (call_params bibi_messages None) 3;
     slept := 2 |}.


(** Further inputs for concrete runs. *)

(** A function that raises at its first two calls and answers from then
    on, and one that always raises; the world counts the calls. *)
Definition flaky (calls : nat) : outcome string * nat :=
  if (calls <? 2)%nat
  then (Raise (mkExn OtherException "connection reset"), S calls)
  else (Ret "data", S calls).

Definition broken (calls : nat) : outcome string * nat :=
  (Raise (mkExn OtherException "connection reset"), S calls).

(** A history of two turns: the user's, then the assistant's. *)
Definition two_turns : UserContexts :=
  add_assistant_message (user_says "x") "y" None "2025-01-01T00:00:01".

(** A context in which a step named by a number has been recorded. *)
Definition numbered_context : AgentContexts :=
  add_agent_result (fresh_context two_step_plan) (PInt 5)
    (unavailable_output "비비").

(** An answer that asks for the news tool, and one that asks for a tool
    the registry does not have. *)
Definition news_call : tool_call :=
  {| tc_id := "call_1"; tc_type := "function";
     tc_name := "get_latest_news"; tc_arguments := "{}" |}.

Definition news_request : response :=
  {| resp_content := None; resp_tool_calls := Some [news_call] |}.



(** The context of the second turn of [two_step_plan], and the messages
    of its first model call. *)
Definition second_turn_context : AgentContexts :=
  add_agent_result (fresh_context two_step_plan) (PStr "비비")
    {| final_output := false;
       progress_description := "비비의 작업 완료";
       output := "hello" |}.

Definition kiki_messages : list message :=
  Eval vm_compute in
    match fst (first_messages env "키키" (user_says "x")
                 second_turn_context (start [])) with
    | Ret messages => messages
    | Raise _ => []
    end.

(** A plan whose second step lacks its description. *)
Definition broken_plan : AgentPlan :=
  {| total_steps := PInt 2;
     plans := PList [step "비비" "인사"; PDict [("agent_name", PStr "키키")]];
     mode := PStr "chat" |}.


End Demo.

(** * Verification *)

Section Facts.

Variable World : Type.
Variable env : collaborators World.

(** ** The gateway *)

Lemma call_transport_sent (req : request) (st : state World) :
  sent (snd (call_transport env req st)) = (sent st ++ [req])%list
  /\ slept (snd (call_transport env req st)) = slept st.
Proof.
  unfold call_transport.
  destruct (transport env (world st) req) as [r w]; simpl; auto.
Qed.

Lemma call_transport_fails (req : request) (st : state World) :
  always_fails env ->
  exists e st', call_transport env req st = (Raise e, st')
                /\ sent st' = (sent st ++ [req])%list
                /\ slept st' = slept st.
Proof.
  intros Hdown. unfold call_transport.
  destruct (Hdown (world st) req) as (e & w' & Hw). rewrite Hw.
  eexists; eexists; split; [reflexivity | simpl; auto].
Qed.

(** The loop on a transport that is down, entered with [remaining] rounds
    left of which the last one is round [max_retries]. *)
Lemma retry_loop_exhausts (messages : list message)
    (tools : option (list pyval)) (max_retries : Z) :
  always_fails env ->
  forall (remaining : nat) (attempt : Z) (st : state World),
    attempt + Z.of_nat remaining = max_retries + 1 ->
    exists st',
      retry_loop env remaining attempt messages tools max_retries st
      = (Ret None, st')
      /\ sent st' = (sent st ++ repeat (call_params messages tools) remaining)%list
      /\ slept st' = (slept st + Nat.pred remaining)%nat.
Proof.
  intros Hdown remaining.
  induction remaining as [|k IH]; intros attempt st Hlast.
  - exists st. simpl. rewrite app_nil_r, Nat.add_0_r. auto.
  - destruct (call_transport_fails (call_params messages tools) st Hdown)
      as (e & st1 & Hcall & Hsent & Hslept).
    simpl. unfold try_except, bind. rewrite Hcall.
    destruct (attempt =? max_retries) eqn:Hround.
    + apply Z.eqb_eq in Hround.
      assert (k = O) by lia. subst k.
      exists st1. simpl. rewrite Hsent, Hslept, Nat.add_0_r. auto.
    + apply Z.eqb_neq in Hround.
      unfold sleep at 1. cbv beta iota.
      destruct (IH (attempt + 1)
                  {| world := world st1; sent := sent st1;
                     slept := S (slept st1) |}) as (st' & Hrun & Hs & Hz).
      { lia. }
      exists st'. split; [exact Hrun|]. simpl in Hs, Hz.
      rewrite Hs, Hz, Hsent, Hslept, <- app_assoc. simpl.
      split; [reflexivity|]. destruct k; [lia|simpl; lia].
Qed.

(** The gateway never raises, whatever the transport does. *)
Lemma retry_loop_returns (messages : list message)
    (tools : option (list pyval)) (max_retries : Z) :
  forall (remaining : nat) (attempt : Z) (st : state World),
    exists o st',
      retry_loop env remaining attempt messages tools max_retries st
      = (Ret o, st').
Proof.
  induction remaining as [|k IH]; intros attempt st; simpl.
  - eexists; eexists; reflexivity.
  - unfold try_except, bind.
    destruct (call_transport env (call_params messages tools) st)
      as [[r|e] st1].
    + eexists; eexists; reflexivity.
    + destruct (attempt =? max_retries).
      * eexists; eexists; reflexivity.
      * unfold sleep at 1. cbv beta iota. apply IH.
Qed.

Lemma safe_llm_call_with_retry_returns (messages : list message)
    (tools : option (list pyval)) (max_retries : Z) (st : state World) :
  exists o st',
    safe_llm_call_with_retry env messages tools max_retries st = (Ret o, st').
Proof. apply retry_loop_returns. Qed.

(** C5.  On a transport that fails at every attempt, whatever the class of
    each failure, [safe_llm_call_with_retry] with [max_retries = r] hands
    the request to the transport exactly r+1 times, sleeps between the
    attempts, and returns [None] rather than raising. *)
Theorem gateway_retry_exhaustion (messages : list message)
    (tools : option (list pyval)) (r : Z) (st : state World) :
  always_fails env ->
  0 <= r ->
  exists st',
    safe_llm_call_with_retry env messages tools r st = (Ret None, st')
    /\ sent st'
       = (sent st ++ repeat (call_params messages tools) (Z.to_nat (r + 1)))%list
    /\ Z.of_nat (List.length (sent st'))
       = Z.of_nat (List.length (sent st)) + (r + 1)
    /\ Z.of_nat (slept st') = Z.of_nat (slept st) + r.
Proof.
  intros Hdown Hr. unfold safe_llm_call_with_retry.
  destruct (retry_loop_exhausts messages tools r Hdown (Z.to_nat (r + 1)) 0 st)
    as (st' & Hrun & Hsent & Hslept).
  { lia. }
  exists st'. split; [exact Hrun|]. split; [exact Hsent|].
  rewrite Hsent, Hslept, length_app, repeat_length. lia.
Qed.

(** ** The monad *)

Lemma bind_ret_inv {A B} (c : M World A) (k : A -> M World B)
    (st st' : state World) (b : B) :
  bind c k st = (Ret b, st') ->
  exists a st1, c st = (Ret a, st1) /\ k a st1 = (Ret b, st').
Proof.
  unfold bind. destruct (c st) as [[a|e] st1]; intros H.
  - exists a, st1. auto.
  - discriminate.
Qed.

Lemma lift_ret_inv {A} (o : outcome A) (st st' : state World) (a : A) :
  lift o st = (Ret a, st') -> o = Ret a /\ st' = st.
Proof. unfold lift. intros H. inversion H. auto. Qed.

Lemma or_default_nonempty (x : option string) (dflt : string) :
  dflt <> "" -> or_default x dflt <> "".
Proof.
  intros Hd. destruct x as [[|c r]|]; simpl; auto. discriminate.
Qed.

(** ** The resolver *)

Lemma call_result_resolved (registry : list (string * tool World))
    (tc : tool_call) (st : state World) :
  exists v st',
    call_result env registry tc st = (Ret v, st')
    /\ resolved env registry tc v
    /\ sent st' = sent st /\ slept st' = slept st.
Proof.
  unfold call_result, try_except, bind, lift.
  destruct (json_loads env (tc_arguments tc)) as [args|e] eqn:Hargs.
  - destruct (assoc registry (tc_name tc)) as [f|] eqn:Hf.
    + unfold run_tool.
      destruct (f args (world st)) as [[v|e] w'] eqn:Hrun.
      * eexists; eexists; split; [reflexivity|]. split; [|simpl; auto].
        eapply tool_answered; eauto.
      * destruct (exn_kind e) eqn:Hk;
          (eexists; eexists; split; [reflexivity|]; split; [|simpl; auto]);
          solve [ eapply tool_raised_decode_error; eauto
                | eapply tool_raised; eauto; rewrite Hk; discriminate ].
    + eexists; eexists; split; [reflexivity|]. split; [|auto].
      eapply tool_unknown; eauto.
  - destruct (exn_kind e) eqn:Hk;
      (eexists; eexists; split; [reflexivity|]; split; [|auto]);
      solve [ eapply arguments_undecodable; eauto
            | eapply decoder_raised; eauto; rewrite Hk; discriminate ].
Qed.

Lemma run_tool_calls_resolved (registry : list (string * tool World))
    (calls : list tool_call) :
  forall st : state World,
  exists msgs st',
    run_tool_calls env registry calls st = (Ret msgs, st')
    /\ Forall2 (follow_up env registry) calls msgs
    /\ sent st' = sent st /\ slept st' = slept st.
Proof.
  induction calls as [|tc rest IH]; intros st; simpl.
  - exists [], st. repeat split; constructor.
  - destruct (call_result_resolved registry tc st)
      as (v & st1 & Hcall & Hres & Hsent1 & Hslept1).
    destruct (IH st1) as (msgs & st' & Hrest & Hall & Hsent & Hslept).
    exists (ToolMsg (tc_id tc) v :: msgs), st'.
    unfold bind. rewrite Hcall, Hrest.
    repeat split; try congruence.
    constructor; [exists v; auto | exact Hall].
Qed.

(** C6.  [execute_tools_if_needed] never raises and returns the response
    text ([""] for none).  Without tool-call requests the follow-up list is
    empty and the world untouched.  With requests, the list is the
    assistant message that repeats them followed by exactly one message per
    request, in order, each tagged with its request's identifier and holding
    the tool's result or the text put in its place (unknown tool, arguments
    that do not decode, tool that raised). *)
Theorem resolver_never_raises (resp : response)
    (registry : list (string * tool World)) (st : state World) :
  exists msgs st',
    execute_tools_if_needed env resp registry st
    = (Ret (or_default (resp_content resp) "", msgs), st')
    /\ match resp_tool_calls resp with
       | None | Some [] => msgs = [] /\ st' = st
       | Some calls =>
           exists tool_msgs,
             msgs = AssistantMsg (resp_content resp) calls :: tool_msgs
             /\ List.length tool_msgs = List.length calls
             /\ Forall2 (follow_up env registry) calls tool_msgs
       end.
Proof.
  unfold execute_tools_if_needed.
  destruct (resp_tool_calls resp) as [[|tc rest]|].
  - exists [], st. auto.
  - destruct (run_tool_calls_resolved registry (tc :: rest) st)
      as (msgs & st' & Hrun & Hall & _).
    exists (AssistantMsg (resp_content resp) (tc :: rest) :: msgs), st'.
    unfold bind. rewrite Hrun. split; [reflexivity|].
    exists msgs. repeat split; auto.
    symmetry. eapply Forall2_length; eauto.
  - exists [], st. auto.
Qed.


(** ** The agent runner *)

Lemma finish_turn_ran_through (agent_name : string) (agent_ctx : AgentContexts)
    (messages : list message) (resp : response) (st st' : state World)
    (o : AgentOutput) :
  finish_turn env agent_name agent_ctx messages resp st = (Ret o, st') ->
  ran_through agent_name o
  /\ int_ge (current_step agent_ctx + 1) (total_step agent_ctx)
     = Ret (final_output o)
  /\ output o <> "".
Proof.
  unfold finish_turn. intros H.
  apply bind_ret_inv in H. destruct H as ([content additional] & st1 & _ & H).
  apply bind_ret_inv in H. destruct H as (final_content & st2 & _ & H).
  apply bind_ret_inv in H. destruct H as (is_final & st3 & Hfinal & H).
  apply lift_ret_inv in Hfinal. destruct Hfinal as [Hfinal _].
  unfold ret in H. inversion H; subst; clear H. simpl.
  repeat split; auto.
  apply or_default_nonempty. discriminate.
Qed.

Lemma unavailable_output_nonempty (agent_name : string) :
  output (unavailable_output agent_name) <> "".
Proof. discriminate. Qed.

Lemma fault_output_nonempty (agent_name : string) :
  output (fault_output agent_name) <> "".
Proof. discriminate. Qed.

(** The three places where [execute_agent] builds its result. *)
Lemma execute_agent_cases (agent_name : string) (user_ctx : UserContexts)
    (agent_ctx : AgentContexts) (st st' : state World) (o : AgentOutput) :
  execute_agent env agent_name user_ctx agent_ctx st = (Ret o, st') ->
  o = unavailable_output agent_name
  \/ o = fault_output agent_name
  \/ (ran_through agent_name o
      /\ int_ge (current_step agent_ctx + 1) (total_step agent_ctx)
         = Ret (final_output o)
      /\ output o <> "").
Proof.
  unfold execute_agent, try_except.
  destruct (execute_agent_body env agent_name user_ctx agent_ctx st)
    as [[o'|e] st1] eqn:Hbody; intros H.
  - inversion H; subst; clear H.
    unfold execute_agent_body in Hbody.
    apply bind_ret_inv in Hbody. destruct Hbody as (messages & st2 & _ & Hbody).
    apply bind_ret_inv in Hbody. destruct Hbody as ([resp|] & st3 & _ & Hbody).
    + right; right. eapply finish_turn_ran_through; eauto.
    + left. unfold ret in Hbody. inversion Hbody; auto.
  - unfold ret in H. inversion H; auto.
Qed.

Lemma execute_agent_returns (agent_name : string) (user_ctx : UserContexts)
    (agent_ctx : AgentContexts) (st : state World) :
  exists o st', execute_agent env agent_name user_ctx agent_ctx st = (Ret o, st').
Proof.
  unfold execute_agent, try_except.
  destruct (execute_agent_body env agent_name user_ctx agent_ctx st)
    as [[o|e] st1].
  - exists o, st1; reflexivity.
  - exists (fault_output agent_name), st1; reflexivity.
Qed.

(** C4.  [execute_agent] never lets an exception out.  When the messages
    of the first model call could be built and the gateway answers that
    call with [None], the result is the unavailability output (final, with
    the apology) and nothing more is done: the state is the one the gateway
    left.  When anything raises inside the turn, the result is the fault
    output: final, with an apology that names the agent. *)
Theorem agent_runner_contains_faults (agent_name : string)
    (user_ctx : UserContexts) (agent_ctx : AgentContexts) (st : state World) :
  (exists o st',
     execute_agent env agent_name user_ctx agent_ctx st = (Ret o, st'))
  /\ (forall messages st1 st2,
        first_messages env agent_name user_ctx agent_ctx st = (Ret messages, st1) ->
        safe_llm_call_with_retry env messages (first_tools env agent_name) 2 st1
        = (Ret None, st2) ->
        exists o,
          execute_agent env agent_name user_ctx agent_ctx st = (Ret o, st2)
          /\ final_output o = true
          /\ progress_description o = agent_name ++ " 실행 실패"
          /\ output o
             = "죄송합니다. 현재 서비스에 일시적인 문제가 발생했습니다. 잠시 후 다시 시도해주세요.")
  /\ (forall e st1,
        execute_agent_body env agent_name user_ctx agent_ctx st = (Raise e, st1) ->
        exists o,
          execute_agent env agent_name user_ctx agent_ctx st = (Ret o, st1)
          /\ final_output o = true
          /\ progress_description o = agent_name ++ " 실행 중 오류 발생"
          /\ output o
             = "죄송합니다. " ++ agent_name
               ++ " 실행 중 오류가 발생했습니다. 다시 시도해주세요.").
Proof.
  split; [apply execute_agent_returns|]. split.
  - intros messages st1 st2 Hmsgs Hcall.
    exists (unavailable_output agent_name).
    unfold execute_agent, try_except, execute_agent_body, bind.
    rewrite Hmsgs, Hcall. simpl. auto.
  - intros e st1 Hbody.
    exists (fault_output agent_name).
    unfold execute_agent, try_except. rewrite Hbody. simpl. auto.
Qed.

(** C7.  Every AgentOutput [execute_agent] produces has a non-empty
    [output], on each of its paths, and it always produces one. *)
Theorem agent_output_nonempty (agent_name : string) (user_ctx : UserContexts)
    (agent_ctx : AgentContexts) (st : state World) :
  exists o st',
    execute_agent env agent_name user_ctx agent_ctx st = (Ret o, st')
    /\ output o <> "".
Proof.
  destruct (execute_agent_returns agent_name user_ctx agent_ctx st)
    as (o & st' & Hrun).
  exists o, st'. split; [exact Hrun|].
  destruct (execute_agent_cases _ _ _ _ Hrun) as [-> | [-> | (_ & _ & Hout)]].
  - apply unavailable_output_nonempty.
  - apply fault_output_nonempty.
  - exact Hout.
Qed.


(** ** The plan executor *)

Lemma add_agent_result_keeps (c : AgentContexts) (agent_name : pyval)
    (o : AgentOutput) :
  invariant c -> invariant (add_agent_result c agent_name o).
Proof.
  intros [Hlen Hstep]. unfold invariant, add_agent_result. simpl.
  rewrite !length_app. simpl. split; lia.
Qed.

Lemma extend_nil (c : AgentContexts) : invariant c -> extend c [] [] = c.
Proof.
  intros [Hlen Hstep]. destruct c as [h t cur outs]. unfold extend. simpl in *.
  rewrite !app_nil_r. congruence.
Qed.

Lemma extend_add (c : AgentContexts) (agent_name : pyval) (o : AgentOutput)
    (names : list pyval) (outs : list AgentOutput) :
  extend (add_agent_result c agent_name o) names outs
  = extend c (agent_name :: names) (o :: outs).
Proof.
  unfold extend, add_agent_result. simpl. rewrite <- !app_assoc. reflexivity.
Qed.

Lemma find_executor_hashable (agent_name : pyval)
    (found : option (executor World)) :
  find_executor env agent_name = Ret found -> py_hashable agent_name = true.
Proof. destruct agent_name; simpl; intros H; try reflexivity; discriminate. Qed.

(** The runner the executor picks is [execute_agent] at the identity
    [runner_identity] names. *)
Lemma find_executor_runner (agent_name : pyval) :
  py_hashable agent_name = true ->
  exists found,
    find_executor env agent_name = Ret found
    /\ match found with
       | Some run => run
       | None => execute_bibi env
       end = execute_agent env (runner_identity agent_name).
Proof.
  destruct agent_name as [| b | z | f | s | l | d]; intros H;
    try discriminate;
    try (exists None; split; reflexivity).
  unfold find_executor, runner_identity, AGENT_EXECUTORS, registered.
  cbn [assoc existsb].
  rewrite !(String.eqb_sym s).
  repeat match goal with
         | |- context [String.eqb ?k s] =>
             destruct (String.eqb_spec k s) as [<- | _];
             [eexists; split; reflexivity|]
         end.
  exists None. split; reflexivity.
Qed.

Lemma run_step_inv (user_ctx : UserContexts) (agent_ctx agent_ctx' : AgentContexts)
    (step_plan : pyval) (st st' : state World) :
  run_step env user_ctx agent_ctx step_plan st = (Ret agent_ctx', st') ->
  exists agent_name o,
    step_named step_plan agent_name
    /\ execute_agent env (runner_identity agent_name) user_ctx agent_ctx st
       = (Ret o, st')
    /\ agent_ctx' = add_agent_result agent_ctx agent_name o.
Proof.
  unfold run_step. intros H.
  apply bind_ret_inv in H. destruct H as (agent_name & st1 & Hname & H).
  apply lift_ret_inv in Hname. destruct Hname as [Hname ->].
  apply bind_ret_inv in H. destruct H as (description & st1 & Hdesc & H).
  apply lift_ret_inv in Hdesc. destruct Hdesc as [Hdesc ->].
  apply bind_ret_inv in H. destruct H as (found & st1 & Hfound & H).
  apply lift_ret_inv in Hfound. destruct Hfound as [Hfound ->].
  apply bind_ret_inv in H. destruct H as (o & st1 & Hrun & H).
  unfold ret in H. inversion H; subst; clear H.
  pose proof (find_executor_hashable _ Hfound) as Hhash.
  destruct (find_executor_runner agent_name Hhash) as (found' & Hfound' & Hsame).
  rewrite Hfound in Hfound'. inversion Hfound'; subst found'.
  exists agent_name, o. repeat split; eauto.
  rewrite <- Hsame. destruct found; exact Hrun.
Qed.

Lemma run_step_returns (user_ctx : UserContexts) (agent_ctx : AgentContexts)
    (step_plan : pyval) (st : state World) :
  runnable_step step_plan ->
  exists agent_ctx' st',
    run_step env user_ctx agent_ctx step_plan st = (Ret agent_ctx', st').
Proof.
  intros (agent_name & Hname & Hhash & description & Hdesc).
  destruct (find_executor_runner agent_name Hhash) as (found & Hfound & Hsame).
  destruct (execute_agent_returns (runner_identity agent_name) user_ctx
              agent_ctx st) as (o & st' & Hrun).
  rewrite <- Hsame in Hrun.
  exists (add_agent_result agent_ctx agent_name o), st'.
  unfold run_step, bind, lift. rewrite Hname, Hdesc, Hfound.
  destruct found; rewrite Hrun; reflexivity.
Qed.

(** What a run of the loop that reaches its end has done: one turn per
    step, each in the context holding the records of the steps before it,
    each from the state its predecessor left. *)
Lemma run_steps_trace (user_ctx : UserContexts) (steps : list pyval) :
  forall (agent_ctx final : AgentContexts) (st st' : state World),
    invariant agent_ctx ->
    run_steps env user_ctx agent_ctx steps st = (Ret final, st') ->
    exists (names : list pyval) (outs : list AgentOutput)
           (sts : nat -> state World),
      final = extend agent_ctx names outs
      /\ Forall2 step_named steps names
      /\ List.length outs = List.length steps
      /\ sts O = st /\ sts (List.length steps) = st'
      /\ forall k agent_name o,
           nth_error names k = Some agent_name ->
           nth_error outs k = Some o ->
           execute_agent env (runner_identity agent_name) user_ctx
             (extend agent_ctx (firstn k names) (firstn k outs)) (sts k)
           = (Ret o, sts (S k)).
Proof.
  induction steps as [|step_plan rest IH]; intros agent_ctx final st st' Hinv Hrun.
  - simpl in Hrun. unfold ret in Hrun. inversion Hrun; subst; clear Hrun.
    exists [], [], (fun _ => st').
    rewrite (extend_nil Hinv). repeat split; auto.
    intros [|k] agent_name o Hk; discriminate.
  - simpl in Hrun. apply bind_ret_inv in Hrun.
    destruct Hrun as (ctx1 & st1 & Hstep & Hrest).
    apply run_step_inv in Hstep.
    destruct Hstep as (agent_name & o & Hnamed & Hturn & ->).
    destruct (IH _ _ _ _ (add_agent_result_keeps agent_name o Hinv) Hrest)
      as (names & outs & sts & Hfinal & Hall & Hlen & Hfirst & Hlast & Hturns).
    exists (agent_name :: names), (o :: outs),
           (fun k => match k with O => st | S j => sts j end).
    rewrite extend_add in Hfinal.
    repeat split; simpl; auto.
    intros [|k] name_k o_k Hname_k Ho_k; simpl in *.
    + injection Hname_k as <-. injection Ho_k as <-.
      rewrite (extend_nil Hinv), Hfirst. exact Hturn.
    + rewrite <- extend_add. apply Hturns; assumption.
Qed.

Lemma run_steps_returns (user_ctx : UserContexts) (steps : list pyval) :
  Forall runnable_step steps ->
  forall (agent_ctx : AgentContexts) (st : state World),
  exists final st', run_steps env user_ctx agent_ctx steps st = (Ret final, st').
Proof.
  induction 1 as [|step_plan rest Hstep _ IH]; intros agent_ctx st; simpl.
  - exists agent_ctx, st. reflexivity.
  - destruct (run_step_returns user_ctx agent_ctx st Hstep)
      as (ctx1 & st1 & Hrun).
    destruct (IH ctx1 st1) as (final & st' & Hrest).
    exists final, st'. unfold bind. rewrite Hrun. exact Hrest.
Qed.

Lemma fresh_context_invariant (plan : AgentPlan) :
  invariant (fresh_context plan).
Proof. split; reflexivity. Qed.

Lemma execute_plan_inv (plan : AgentPlan) (user_ctx : UserContexts)
    (st st' : state World) (ctx : AgentContexts) :
  execute_plan env plan user_ctx st = (Ret ctx, st') ->
  exists steps,
    py_iter (plans plan) = Ret steps
    /\ run_steps env user_ctx (fresh_context plan) steps st = (Ret ctx, st').
Proof.
  unfold execute_plan. intros H.
  apply bind_ret_inv in H. destruct H as (steps & st1 & Hiter & H).
  apply lift_ret_inv in Hiter. destruct Hiter as [Hiter ->].
  exists steps. auto.
Qed.


Lemma utf8_chars_aux_nonempty (r cur : string) : utf8_chars_aux cur r <> [].
Proof.
  revert cur. induction r as [|c r IH]; intros cur; simpl.
  - discriminate.
  - destruct (is_continuation c); [apply IH | discriminate].
Qed.

(** A plan whose every step could be run has as many steps as
    [len(plan.plans)] says. *)
Lemma runnable_steps_len (v : pyval) (steps names : list pyval) :
  py_iter v = Ret steps ->
  Forall2 step_named steps names ->
  py_len v = Ret (List.length steps).
Proof.
  destruct v as [| b | z | f | s | l | d]; simpl; intros Hiter Hall;
    try discriminate; injection Hiter as <-.
  - destruct s as [|c r]; [reflexivity|].
    simpl in Hall. destruct (utf8_chars_aux (String c "") r) eqn:Hchars.
    + exfalso. eapply utf8_chars_aux_nonempty; eauto.
    + simpl in Hall. inversion Hall as [|? ? ? ? (Hget & _)]; subst.
      discriminate.
  - reflexivity.
  - destruct d as [|[k x] d]; [reflexivity|].
    simpl in Hall. inversion Hall as [|? ? ? ? (Hget & _)]; subst.
    discriminate.
Qed.

Lemma eq_int_ge (v : pyval) (n k : Z) :
  eq_int v n = true -> int_ge k v = Ret (n <=? k).
Proof.
  destruct v as [| b | z | f | s | l | d]; simpl; try discriminate.
  - intros H. apply Z.eqb_eq in H. rewrite H. reflexivity.
  - intros H. apply Z.eqb_eq in H. rewrite H. reflexivity.
  - destruct f as [| neg | num den]; try discriminate.
    intros H. apply Z.eqb_eq in H. subst num. f_equal.
    destruct (n <=? k) eqn:Hle.
    + apply Z.leb_le. apply Z.leb_le in Hle. nia.
    + apply Z.leb_gt. apply Z.leb_gt in Hle. nia.
Qed.

(** C1, as amended.  A plan executed to completion leaves both histories
    as long as [len(plan.plans)], which is also [current_step], and
    [total_step] is [plan.total_steps]: the histories are as long as
    [total_step] says exactly when the plan's [total_steps] equals
    [len(plans)]. *)
Theorem completed_plan_lengths (plan : AgentPlan) (user_ctx : UserContexts)
    (st st' : state World) (ctx : AgentContexts) :
  execute_plan env plan user_ctx st = (Ret ctx, st') ->
  exists n : nat,
    py_len (plans plan) = Ret n
    /\ List.length (agent_id_history ctx) = n
    /\ List.length (agent_output ctx) = n
    /\ current_step ctx = Z.of_nat n
    /\ total_step ctx = total_steps plan
    /\ (steps_agree plan
        <-> eq_int (total_step ctx)
              (Z.of_nat (List.length (agent_output ctx))) = true).
Proof.
  intros Hrun. apply execute_plan_inv in Hrun.
  destruct Hrun as (steps & Hiter & Hrun).
  apply run_steps_trace in Hrun; [|apply fresh_context_invariant].
  destruct Hrun as (names & outs & sts & -> & Hall & Hlen & _).
  pose proof (runnable_steps_len _ Hiter Hall) as Hpylen.
  pose proof (Forall2_length Hall) as Hnames.
  exists (List.length steps). simpl. rewrite Hlen.
  repeat split; auto.
  - intros (n & Hn & Heq). rewrite Hpylen in Hn. injection Hn as <-. exact Heq.
  - intros Heq. exists (List.length steps). auto.
Qed.

(** C3, as amended.  In a plan executed to completion, the output at
    index k comes from the runner of step k's identity, run with
    [current_step = k]: it is the unavailability output or the fault
    output, both final, or it was built at the end of the turn with
    [final_output = (k + 1 >= total_steps)].  So when the plan's
    [total_steps] equals [len(plans)], the last output is final, and an
    earlier one is either not final or one of the two failure outputs. *)
Theorem finality_of_recorded_outputs (plan : AgentPlan)
    (user_ctx : UserContexts) (st st' : state World) (ctx : AgentContexts) :
  execute_plan env plan user_ctx st = (Ret ctx, st') ->
  forall (k : nat) (o : AgentOutput),
    nth_error (agent_output ctx) k = Some o ->
    exists agent_name,
      nth_error (agent_id_history ctx) k = Some agent_name
      /\ let identity := runner_identity agent_name in
         ((o = unavailable_output identity \/ o = fault_output identity)
          /\ final_output o = true
          \/ ran_through identity o
             /\ int_ge (Z.of_nat k + 1) (total_steps plan)
                = Ret (final_output o))
         /\ (steps_agree plan ->
             if (S k =? List.length (agent_output ctx))%nat
             then final_output o = true
             else o = unavailable_output identity
                  \/ o = fault_output identity
                  \/ ran_through identity o /\ final_output o = false).
Proof.
  intros Hrun k o Hk. apply execute_plan_inv in Hrun.
  destruct Hrun as (steps & Hiter & Hrun).
  apply run_steps_trace in Hrun; [|apply fresh_context_invariant].
  destruct Hrun as (names & outs & sts & -> & Hall & Hlen & _ & _ & Hturns).
  pose proof (runnable_steps_len _ Hiter Hall) as Hpylen.
  pose proof (Forall2_length Hall) as Hnames.
  cbn [extend fresh_context agent_output agent_id_history total_step app] in *.
  assert (Hlt : (k < List.length names)%nat).
  { rewrite <- Hnames, <- Hlen. apply nth_error_Some. congruence. }
  destruct (nth_error names k) as [agent_name|] eqn:Hname;
    [|apply nth_error_None in Hname; lia].
  exists agent_name. split; [reflexivity|]. cbv zeta.
  specialize (Hturns k agent_name o Hname Hk).
  apply execute_agent_cases in Hturns.
  cbn [extend fresh_context current_step agent_id_history total_step app]
    in Hturns.
  rewrite length_firstn, Nat.min_l in Hturns by lia.
  destruct Hturns as [-> | [-> | (Hran & Hfinal & _)]].
  - split; [left; split; [left|]; reflexivity|]. intros _.
    destruct (S k =? List.length outs)%nat; auto.
  - split; [left; split; [right|]; reflexivity|]. intros _.
    destruct (S k =? List.length outs)%nat; auto.
  - split; [right; auto|].
    intros (n & Hn & Heq). rewrite Hpylen in Hn. injection Hn as <-.
    rewrite (@eq_int_ge _ _ _ Heq) in Hfinal. injection Hfinal as Hfinal.
    rewrite <- Hlen in Hfinal.
    destruct (S k =? List.length outs)%nat eqn:Hlast.
    + apply Nat.eqb_eq in Hlast. rewrite <- Hfinal. apply Z.leb_le. lia.
    + apply Nat.eqb_neq in Hlast. right; right. split; [exact Hran|].
      rewrite <- Hfinal. apply Z.leb_gt.
      rewrite <- Hnames, <- Hlen in Hlt. lia.
Qed.

(** C10, as amended.  For a plan whose [plans] is a list of steps that
    each carry a hashable [agent_name] and a [description], whatever its
    [total_steps], [execute_plan] returns, having run one turn per step in
    list order: step k's turn is run by the runner of the step's own
    identity when that is one of the five registered and by the default
    identity's runner otherwise, in the context holding the records of the
    k steps before it, from the state the turn before left; the context
    returned holds the steps' names and the turns' outputs, as many as
    there are steps. *)
Theorem plan_executor_runs_each_step (plan : AgentPlan)
    (user_ctx : UserContexts) (st : state World) (steps : list pyval) :
  plans plan = PList steps ->
  Forall runnable_step steps ->
  exists (names : list pyval) (outs : list AgentOutput)
         (sts : nat -> state World),
    execute_plan env plan user_ctx st
    = (Ret (extend (fresh_context plan) names outs), sts (List.length steps))
    /\ sts O = st
    /\ Forall2 step_named steps names
    /\ List.length outs = List.length steps
    /\ (forall k agent_name o,
          nth_error names k = Some agent_name ->
          nth_error outs k = Some o ->
          execute_agent env (runner_identity agent_name) user_ctx
            (extend (fresh_context plan) (firstn k names) (firstn k outs))
            (sts k)
          = (Ret o, sts (S k)))
    /\ (forall s, In s registered -> runner_identity (PStr s) = s)
    /\ (forall v, (forall s, In s registered -> v <> PStr s) ->
                  runner_identity v = "비비").
Proof.
  intros Hplans Hall.
  destruct (run_steps_returns user_ctx Hall (fresh_context plan) st)
    as (final & st' & Hrun).
  destruct (run_steps_trace _ _ _ (fresh_context_invariant plan) Hrun)
    as (names & outs & sts & -> & Hnamed & Hlen & Hfirst & Hlast & Hturns).
  exists names, outs, sts.
  split.
  { unfold execute_plan, bind, lift. rewrite Hplans. simpl.
    rewrite Hlast. exact Hrun. }
  repeat split; auto.
  - intros s Hs. unfold registered in Hs. simpl in Hs.
    repeat destruct Hs as [<- | Hs]; try reflexivity. contradiction.
  - intros v Hv. destruct v as [| b | z | f | s | l | d]; try reflexivity.
    unfold runner_identity.
    destruct (existsb (String.eqb s) registered) eqn:Hin; [|reflexivity].
    apply existsb_exists in Hin. destruct Hin as (x & Hx & Heq).
    apply String.eqb_eq in Heq. subst x. exfalso. exact (Hv s Hx eq_refl).
Qed.


(** ** The planner *)

Lemma single_step_plan_agrees (agent_name description : string) :
  steps_agree (single_step_plan agent_name description).
Proof. exists 1%nat. split; reflexivity. Qed.

Lemma keyword_plan_inv (resp : response) (plan : AgentPlan) :
  keyword_plan resp = Ret plan ->
  exists agent_name,
    In agent_name registered
    /\ plan = single_step_plan agent_name "사용자 요청 처리".
Proof.
  unfold keyword_plan, registered.
  destruct (resp_content resp) as [text|]; [|discriminate].
  intros H. injection H as <-.
  repeat match goal with
         | |- context [if contains ?kw text then _ else _] =>
             destruct (contains kw text)
         end;
    eexists; (split; [|reflexivity]); simpl; tauto.
Qed.

Lemma decode_plan_inv (resp : response) (plan : AgentPlan) :
  decode_plan env resp = Ret plan ->
  exists text d,
    resp_content resp = Some text
    /\ json_loads env (strip_code_fence env text) = Ret (PDict d)
    /\ plan = {| total_steps := dict_get_default d "total_steps" (PInt 1);
                 plans := dict_get_default d "plans" (PList []);
                 mode := dict_get_default d "mode" (PStr "chat") |}.
Proof.
  unfold decode_plan.
  destruct (resp_content resp) as [text|]; [|discriminate].
  destruct (json_loads env (strip_code_fence env text)) as [plan_data|e]
    eqn:Hloads; [|discriminate].
  destruct plan_data; try discriminate.
  simpl. intros H. injection H as <-. eauto.
Qed.

(** C2, as amended.  [execute_manager] never raises.  The plan it returns
    is either synthesized - on gateway unavailability, by keyword
    fallback, or after a fault - and then has one step naming a registered
    identity, with [total_steps == 1 == len(plans)]; or it is decoded from
    the response the gateway returned, and then carries the [total_steps],
    [plans] and [mode] entries of the decoded mapping as they are (1, the
    empty list and "chat" for an absent entry), whether or not they
    agree. *)
Theorem planner_never_raises (user_ctx : UserContexts)
    (agent_ctx : AgentContexts) (st : state World) :
  exists plan st',
    execute_manager env user_ctx agent_ctx st = (Ret plan, st')
    /\ ((exists agent_name description,
           In agent_name registered
           /\ plan = single_step_plan agent_name description
           /\ steps_agree plan)
        \/ (exists messages st1 resp text d,
              safe_llm_call_with_retry env messages None 2 st1
              = (Ret (Some resp), st')
              /\ resp_content resp = Some text
              /\ json_loads env (strip_code_fence env text) = Ret (PDict d)
              /\ plan
                 = {| total_steps := dict_get_default d "total_steps" (PInt 1);
                      plans := dict_get_default d "plans" (PList []);
                      mode := dict_get_default d "mode" (PStr "chat") |})).
Proof.
  unfold execute_manager, try_except.
  destruct (execute_manager_body env user_ctx agent_ctx st)
    as [[plan|e] st'] eqn:Hbody.
  - exists plan, st'. split; [reflexivity|].
    unfold execute_manager_body in Hbody.
    apply bind_ret_inv in Hbody. destruct Hbody as (base & st1 & _ & Hbody).
    apply bind_ret_inv in Hbody. destruct Hbody as (last & st2 & _ & Hbody).
    apply bind_ret_inv in Hbody. destruct Hbody as (prompt & st3 & _ & Hbody).
    apply bind_ret_inv in Hbody.
    destruct Hbody as ([resp|] & st4 & Hcall & Hbody).
    + apply lift_ret_inv in Hbody. destruct Hbody as [Hplan ->].
      unfold plan_of_response in Hplan.
      destruct (decode_plan env resp) as [decoded|e] eqn:Hdecode.
      * injection Hplan as ->. right.
        destruct (decode_plan_inv _ Hdecode) as (text & d & Htext & Hd & ->).
        eauto 10.
      * left.
        assert (Hkw : keyword_plan resp = Ret plan)
          by (destruct (exn_kind e); (exact Hplan || discriminate)).
        destruct (keyword_plan_inv _ Hkw) as (agent_name & Hin & ->).
        eauto using single_step_plan_agrees.
    + unfold ret in Hbody. injection Hbody as <- <-. left.
      exists "비비". eexists. split; [simpl; tauto|].
      split; [reflexivity | apply single_step_plan_agrees].
  - exists (single_step_plan "비비" "오류 상황에서의 기본 응답"), st'.
    split; [reflexivity|]. left.
    exists "비비". eexists. split; [simpl; tauto|].
    split; [reflexivity | apply single_step_plan_agrees].
Qed.

(** ** Session state persistence *)

Lemma traverse_as_dict (l : list pydict) : traverse as_dict (map PDict l) = Ret l.
Proof.
  induction l as [|d l IH]; simpl; [reflexivity|]. rewrite IH. reflexivity.
Qed.

Lemma new_AgentOutput_asdict (o : AgentOutput) :
  new_AgentOutput (asdict_AgentOutput o) = Ret o.
Proof. destruct o. reflexivity. Qed.

Lemma traverse_new_AgentOutput (l : list AgentOutput) :
  traverse new_AgentOutput (map asdict_AgentOutput l) = Ret l.
Proof.
  induction l as [|o l IH]; [reflexivity|].
  cbn [map traverse]. rewrite new_AgentOutput_asdict, IH. reflexivity.
Qed.

Lemma new_UserContexts_asdict (u : UserContexts) :
  new_UserContexts (asdict_UserContexts u) = Ret u.
Proof.
  destruct u as [ui ch]. unfold new_UserContexts, asdict_UserContexts.
  cbn -[traverse]. rewrite traverse_as_dict. reflexivity.
Qed.

(** C9.  Whenever the dict image of a context survives the trip through
    the JSON text - that is, the context's fields are representable in the
    serialized form - [from_json (to_json ctx)] is the context again, field
    for field, lists in their order; for UserContexts and for
    AgentContexts.  Equal means the same field values; Python's [==] agrees
    with that except on a NaN, which it finds unequal to itself. *)
Theorem json_round_trip (dumps : pyval -> string)
    (loads : string -> outcome pyval) :
  (forall u : UserContexts,
      loads (dumps (asdict_UserContexts u)) = Ret (asdict_UserContexts u) ->
      UserContexts_from_json loads (UserContexts_to_json dumps u) = Ret u)
  /\ (forall a : AgentContexts,
        loads (dumps (asdict_AgentContexts a)) = Ret (asdict_AgentContexts a) ->
        AgentContexts_from_json loads (AgentContexts_to_json dumps a) = Ret a).
Proof.
  split.
  - intros u Hu. unfold UserContexts_from_json, UserContexts_to_json.
    rewrite Hu. apply new_UserContexts_asdict.
  - intros a Ha. unfold AgentContexts_from_json, AgentContexts_to_json.
    rewrite Ha. destruct a as [hist total cur outs].
    unfold asdict_AgentContexts. cbn -[traverse asdict_AgentOutput].
    rewrite traverse_new_AgentOutput. reflexivity.
Qed.


(** ** The data model *)

(** C8.  [add_agent_result] keeps the invariant
    [len(agent_id_history) == len(agent_output) == current_step]: both
    histories grow by exactly the one new element, at their end, and
    [current_step] is their common new length. *)
Theorem add_agent_result_invariant (c : AgentContexts) (agent_name : pyval)
    (o : AgentOutput) :
  invariant c ->
  let c' := add_agent_result c agent_name o in
  agent_id_history c' = (agent_id_history c ++ [agent_name])%list
  /\ agent_output c' = (agent_output c ++ [o])%list
  /\ List.length (agent_id_history c') = S (List.length (agent_id_history c))
  /\ List.length (agent_output c') = S (List.length (agent_output c))
  /\ current_step c' = current_step c + 1
  /\ invariant c'.
Proof.
  intros [Hlen Hstep]. unfold invariant, add_agent_result. simpl.
  rewrite !length_app. simpl. repeat split; try lia.
Qed.

(** ** More on the gateway *)

Lemma retry_loop_succeeds (messages : list message)
    (tools : option (list pyval)) (max_retries : Z) (resp : response)
    (k : nat) (w w' : World) :
  fails_then_returns (fun w => transport env w (call_params messages tools))
    resp k w w' ->
  forall (remaining : nat) (attempt : Z) (log : list request) (naps : nat),
    (k < remaining)%nat ->
    attempt + Z.of_nat remaining = max_retries + 1 ->
    retry_loop env remaining attempt messages tools max_retries
      {| world := w; sent := log; slept := naps |}
    = (Ret (Some resp),
       {| world := w';
          sent := (log ++ repeat (call_params messages tools) (S k))%list;
          slept := (naps + k)%nat |}).
Proof.
  induction 1 as [w w' Hcall | k w w1 w' e Hcall _ IH];
    intros remaining attempt log naps Hk Hlast;
    (destruct remaining as [|remaining]; [lia|]);
    simpl; unfold try_except, bind, call_transport; simpl; rewrite Hcall.
  - unfold ret. rewrite Nat.add_0_r. reflexivity.
  - destruct (attempt =? max_retries) eqn:Hround.
    + apply Z.eqb_eq in Hround. lia.
    + cbn [world sent slept].
      rewrite (IH remaining (attempt + 1) (log ++ [call_params messages tools])%list
                 (S naps)) by lia.
      rewrite <- app_assoc. simpl. do 3 f_equal. lia.
Qed.

(** X1.  A transport that fails exactly k times, whatever the failures,
    and then answers, with [max_retries >= k]: the gateway returns that
    answer after handing the request over exactly k+1 times, with k sleeps
    in between. *)
Theorem gateway_retry_success (messages : list message)
    (tools : option (list pyval)) (r : Z) (k : nat) (resp : response)
    (st : state World) (w' : World) :
  fails_then_returns (fun w => transport env w (call_params messages tools))
    resp k (world st) w' ->
  Z.of_nat k <= r ->
  safe_llm_call_with_retry env messages tools r st
  = (Ret (Some resp),
     {| world := w';
        sent := (sent st ++ repeat (call_params messages tools) (S k))%list;
        slept := (slept st + k)%nat |}).
Proof.
  intros Hruns Hk. unfold safe_llm_call_with_retry.
  destruct st as [w log naps]. simpl in Hruns.
  eapply retry_loop_succeeds; [exact Hruns | lia | lia].
Qed.

Lemma retry_loop_bounded (messages : list message)
    (tools : option (list pyval)) (max_retries : Z) :
  forall (remaining : nat) (attempt : Z) (st : state World),
    attempt + Z.of_nat remaining = max_retries + 1 ->
    exists o st' n,
      retry_loop env remaining attempt messages tools max_retries st
      = (Ret o, st')
      /\ sent st' = (sent st ++ repeat (call_params messages tools) n)%list
      /\ (n <= remaining)%nat
      /\ slept st' = (slept st + Nat.pred n)%nat
      /\ (o = None -> n = remaining)
      /\ (o <> None -> (1 <= n)%nat).
Proof.
  induction remaining as [|k IH]; intros attempt st Hlast.
  - exists None, st, O. simpl. rewrite app_nil_r, Nat.add_0_r.
    repeat split; auto; try (intros H; contradiction).
  - simpl. unfold try_except, bind.
    destruct (call_transport_sent (call_params messages tools) st)
      as [Hsent Hslept].
    destruct (call_transport env (call_params messages tools) st)
      as [[resp|e] st1].
    + exists (Some resp), st1, 1%nat. simpl in Hsent, Hslept. simpl.
      rewrite Hsent, Hslept, Nat.add_0_r.
      repeat split; auto; try lia; try discriminate.
    + simpl in Hsent, Hslept. destruct (attempt =? max_retries) eqn:Hround.
      * apply Z.eqb_eq in Hround. assert (k = O) by lia. subst k.
        exists None, st1, 1%nat. simpl. rewrite Hsent, Hslept, Nat.add_0_r.
        repeat split; auto; try (intros H; contradiction).
      * apply Z.eqb_neq in Hround. unfold sleep at 1. cbv beta iota.
        destruct (IH (attempt + 1)
                    {| world := world st1; sent := sent st1;
                       slept := S (slept st1) |})
          as (o & st' & n & Hrun & Hs & Hn & Hz & Hnone & Hsome); [lia|].
        exists o, st', (S n). simpl in Hs, Hz.
        split; [exact Hrun|].
        rewrite Hs, Hz, Hsent, Hslept, <- app_assoc. simpl.
        repeat split; try lia.
        -- assert (o = None \/ o <> None) as [Ho | Ho]
             by (destruct o; [right; discriminate | left; reflexivity]).
           ++ rewrite (Hnone Ho). assert (k <> O) by lia. lia.
           ++ specialize (Hsome Ho). lia.
        -- intros Ho. rewrite (Hnone Ho). reflexivity.
Qed.

(** X2.  Whatever the transport does, the gateway never raises, never
    hands the request over more than [max_retries + 1] times (not at all
    when [max_retries] is negative), sends the same request each time,
    sleeps only between attempts, and returns [None] only when all the
    attempts are used up. *)
Theorem gateway_attempts_bounded (messages : list message)
    (tools : option (list pyval)) (r : Z) (st : state World) :
  exists o st' n,
    safe_llm_call_with_retry env messages tools r st = (Ret o, st')
    /\ sent st' = (sent st ++ repeat (call_params messages tools) n)%list
    /\ (n <= Z.to_nat (r + 1))%nat
    /\ slept st' = (slept st + Nat.pred n)%nat
    /\ (o = None -> n = Z.to_nat (r + 1))
    /\ (o <> None -> (1 <= n)%nat).
Proof.
  unfold safe_llm_call_with_retry.
  destruct (Z_lt_le_dec (r + 1) 0) as [Hneg | Hpos].
  - replace (Z.to_nat (r + 1)) with O by lia.
    exists None, st, O. simpl. rewrite app_nil_r, Nat.add_0_r.
    repeat split; auto; try (intros H; contradiction).
  - apply retry_loop_bounded. lia.
Qed.

(** ** The retry helper of the tools *)

Lemma request_loop_succeeds {A} (func : World -> outcome A * World)
    (max_retries : Z) (delay : nat) (a : A) (k : nat) (w w' : World) :
  fails_then_returns func a k w w' ->
  forall (remaining : nat) (attempt : Z) (log : list request) (naps : nat),
    (k < remaining)%nat ->
    attempt + Z.of_nat remaining = max_retries + 1 ->
    request_loop remaining attempt func max_retries delay
      {| world := w; sent := log; slept := naps |}
    = (Ret (Some a),
       {| world := w'; sent := log; slept := (naps + k * delay)%nat |}).
Proof.
  induction 1 as [w w' Hcall | k w w1 w' e Hcall _ IH];
    intros remaining attempt log naps Hk Hlast;
    (destruct remaining as [|remaining]; [lia|]);
    simpl; unfold try_except, bind, run_func; simpl; rewrite Hcall.
  - unfold ret. rewrite Nat.add_0_r. reflexivity.
  - destruct (attempt =? max_retries) eqn:Hround.
    + apply Z.eqb_eq in Hround. lia.
    + cbn [world sent slept].
      rewrite (IH remaining (attempt + 1) log (naps + delay)%nat) by lia.
      do 2 f_equal. lia.
Qed.

(** X3.  [safe_request_with_retry]: when [func] raises exactly k times
    and then returns a value, with [max_retries >= k], the helper returns
    that value after k+1 calls of [func], having slept [delay] seconds
    after each failure. *)
Theorem request_retry_success {A} (func : World -> outcome A * World)
    (r : Z) (delay : nat) (a : A) (k : nat) (st : state World) (w' : World) :
  fails_then_returns func a k (world st) w' ->
  Z.of_nat k <= r ->
  safe_request_with_retry func r delay st
  = (Ret (Some a),
     {| world := w'; sent := sent st; slept := (slept st + k * delay)%nat |}).
Proof.
  intros Hruns Hk. unfold safe_request_with_retry.
  destruct st as [w log naps]. simpl in Hruns.
  eapply request_loop_succeeds; [exact Hruns | lia | lia].
Qed.

Lemma request_loop_exhausts {A} (func : World -> outcome A * World)
    (max_retries : Z) (delay : nat) (n : nat) (w w' : World) :
  fails_times func n w w' ->
  forall (attempt : Z) (log : list request) (naps : nat),
    attempt + Z.of_nat n = max_retries + 1 ->
    request_loop n attempt func max_retries delay
      {| world := w; sent := log; slept := naps |}
    = (Ret None,
       {| world := w'; sent := log;
          slept := (naps + Nat.pred n * delay)%nat |}).
Proof.
  induction 1 as [w | k w w1 w' e Hcall Hrest IH];
    intros attempt log naps Hlast; simpl.
  - unfold ret. rewrite Nat.add_0_r. reflexivity.
  - unfold try_except, bind, run_func. simpl. rewrite Hcall.
    destruct (attempt =? max_retries) eqn:Hround.
    + apply Z.eqb_eq in Hround. assert (k = O) by lia. subst k.
      inversion Hrest; subst. unfold ret. rewrite Nat.add_0_r. reflexivity.
    + apply Z.eqb_neq in Hround. cbn [world sent slept].
      rewrite (IH (attempt + 1) log (naps + delay)%nat) by lia.
      do 2 f_equal. destruct k; [lia | simpl; lia].
Qed.

(** X4.  [safe_request_with_retry]: when [func] raises at each of its
    [max_retries + 1] calls, the helper returns [None] without raising;
    [func] has been called exactly [max_retries + 1] times and [delay]
    seconds were slept after each failure but the last. *)
Theorem request_retry_exhaustion {A} (func : World -> outcome A * World)
    (r : Z) (delay : nat) (st : state World) (w' : World) :
  0 <= r ->
  fails_times func (Z.to_nat (r + 1)) (world st) w' ->
  safe_request_with_retry (A := A) func r delay st
  = (Ret None,
     {| world := w'; sent := sent st;
        slept := (slept st + Z.to_nat r * delay)%nat |}).
Proof.
  intros Hr Hfails. unfold safe_request_with_retry.
  destruct st as [w log naps]. simpl in Hfails.
  erewrite request_loop_exhausts; [|exact Hfails | lia].
  do 2 f_equal. replace (Z.to_nat (r + 1)) with (S (Z.to_nat r)) by lia.
  reflexivity.
Qed.


(** ** The latest user turn *)

Lemma scan_skips_other_turns (others rest : list pydict) :
  Forall other_turn others ->
  scan_user_message (others ++ rest) = scan_user_message rest.
Proof.
  induction 1 as [|chat others (role & Hrole & Hother) _ IH]; [reflexivity|].
  simpl. unfold dict_item. rewrite Hrole. simpl. rewrite Hother. exact IH.
Qed.

(** X5.  [last_user_message] is the content of the latest turn whose role
    is user, whatever stands before it in the history, provided every
    later turn has a role; and it is the empty text when every turn has a
    role and none is the user's. *)
Theorem last_user_message_latest (user_ctx : UserContexts) :
  (forall before chat after role,
      chat_history user_ctx = (before ++ chat :: after)%list ->
      dict_get chat "role" = Some role ->
      eq_str role "user" = true ->
      Forall other_turn after ->
      last_user_message user_ctx = dict_item chat "content")
  /\ (Forall other_turn (chat_history user_ctx) ->
      last_user_message user_ctx = Ret (PStr "")).
Proof.
  unfold last_user_message. split.
  - intros before chat after role Hhist Hrole Huser Hafter.
    rewrite Hhist, rev_app_distr. simpl. rewrite <- app_assoc. simpl.
    rewrite scan_skips_other_turns by (apply Forall_rev; exact Hafter).
    simpl. unfold dict_item at 1. rewrite Hrole. simpl. rewrite Huser.
    reflexivity.
  - intros Hall. rewrite <- (app_nil_r (rev (chat_history user_ctx))).
    rewrite scan_skips_other_turns by (apply Forall_rev; exact Hall).
    reflexivity.
Qed.

(** X6.  Right after [add_user_message], the latest user turn is the
    message just added, whatever the history held before; and
    [add_assistant_message] does not change what the latest user turn
    is. *)
Theorem last_user_message_after_add (user_ctx : UserContexts)
    (content now : string) (progress : option string) :
  last_user_message (add_user_message user_ctx content now)
  = Ret (PStr content)
  /\ last_user_message (add_assistant_message user_ctx content progress now)
     = last_user_message user_ctx.
Proof.
  unfold last_user_message, add_user_message, add_assistant_message. simpl.
  rewrite !rev_app_distr. split; reflexivity.
Qed.

(** ** More on the context assembler *)

Lemma recent_chats_fixed {A} (history : list A) :
  let recent := skipn (List.length history - 5) history in
  skipn (List.length recent - 5) recent = recent
  /\ (history <> [] -> recent <> []).
Proof.
  cbv zeta. split.
  - rewrite length_skipn.
    replace (List.length history - (List.length history - 5) - 5)%nat
      with O by lia.
    reflexivity.
  - intros Hne Hnil.
    assert (Hlen : List.length (skipn (List.length history - 5) history) = O)
      by (rewrite Hnil; reflexivity).
    rewrite length_skipn in Hlen.
    assert (List.length history <> O)
      by (destruct history; [contradiction | discriminate]).
    lia.
Qed.

(** X7.  The prompt depends on the chat history through its last five
    turns only: older turns, well formed or not, change nothing. *)
Theorem context_prompt_last_five (user_ctx : UserContexts)
    (agent_ctx : AgentContexts) (base_prompt : string) :
  create_context_prompt env user_ctx agent_ctx base_prompt
  = create_context_prompt env
      {| user_info := user_info user_ctx;
         chat_history :=
           skipn (List.length (chat_history user_ctx) - 5)
             (chat_history user_ctx) |}
      agent_ctx base_prompt.
Proof.
  unfold create_context_prompt. cbn [user_info chat_history].
  destruct (recent_chats_fixed (chat_history user_ctx)) as [Hfix Hne].
  cbv zeta in Hfix, Hne.
  destruct (chat_history user_ctx) as [|chat history] eqn:Hhist.
  - reflexivity.
  - destruct (skipn (List.length (chat :: history) - 5) (chat :: history))
      as [|chat' recent] eqn:Hrecent.
    + exfalso. apply Hne; [discriminate | reflexivity].
    + rewrite Hfix. reflexivity.
Qed.

Lemma chat_lines_returns (recent_chats : list pydict) :
  Forall well_formed_turn recent_chats ->
  exists lines, chat_lines env recent_chats = Ret lines.
Proof.
  induction 1 as [|chat rest (role & content & Hrole & Hcontent) _ (lines & IH)].
  - exists "". reflexivity.
  - simpl. unfold dict_item. rewrite Hrole, Hcontent. simpl. rewrite IH.
    simpl. eexists. reflexivity.
Qed.

Lemma str_items_returns (names : list pyval) :
  all_strings names -> exists ss, str_items names = Ret ss.
Proof.
  induction 1 as [|v rest (s & ->) _ (ss & IH)].
  - exists []. reflexivity.
  - simpl. rewrite IH. simpl. eexists. reflexivity.
Qed.

Lemma str_items_raises (names : list pyval) :
  ~ all_strings names -> exists e, str_items names = Raise e.
Proof.
  induction names as [|v rest IH]; intros Hnot.
  - exfalso. apply Hnot. constructor.
  - destruct v; simpl; try (eexists; reflexivity).
    destruct (str_items rest) as [ss|e] eqn:Hrest; simpl;
      [|eexists; reflexivity].
    destruct IH as (e & He); [|discriminate].
    intros Hall. apply Hnot. constructor; [eexists; reflexivity | exact Hall].
Qed.

(** X8.  When the last five chat turns are well formed and every
    recorded identity is a string, the assembler returns a prompt: the
    base prompt first, the instruction sentence last. *)
Theorem context_prompt_returns (user_ctx : UserContexts)
    (agent_ctx : AgentContexts) (base_prompt : string) :
  Forall well_formed_turn
    (skipn (List.length (chat_history user_ctx) - 5) (chat_history user_ctx)) ->
  all_strings (agent_id_history agent_ctx) ->
  exists context_info,
    create_context_prompt env user_ctx agent_ctx base_prompt
    = Ret (base_prompt ++ context_info ++ nl ++ nl
           ++ "위 정보를 참고하여 사용자의 요청에 적절히 응답해주세요.").
Proof.
  intros Hchats Hnames. unfold create_context_prompt.
  destruct (str_items_returns Hnames) as (ss & Hss).
  destruct (chat_history user_ctx) as [|chat history].
  - cbv beta iota zeta delta [obind].
    destruct (agent_id_history agent_ctx) as [|v names];
      [|rewrite Hss]; cbv beta iota; eexists; reflexivity.
  - destruct (chat_lines_returns Hchats) as (lines & Hlines).
    cbv beta iota zeta. rewrite Hlines.
    cbv beta iota zeta delta [obind].
    destruct (agent_id_history agent_ctx) as [|v names];
      [|rewrite Hss]; cbv beta iota; eexists; reflexivity.
Qed.

Lemma context_prompt_raises (user_ctx : UserContexts)
    (agent_ctx : AgentContexts) (base_prompt : string) :
  ~ all_strings (agent_id_history agent_ctx) ->
  exists e, create_context_prompt env user_ctx agent_ctx base_prompt = Raise e.
Proof.
  intros Hnot. unfold create_context_prompt.
  destruct (str_items_raises Hnot) as (e & He).
  assert (Hne : agent_id_history agent_ctx <> []).
  { intros Hnil. apply Hnot. rewrite Hnil. constructor. }
  destruct (agent_id_history agent_ctx) as [|v names]; [contradiction|].
  destruct (chat_history user_ctx) as [|chat history].
  - cbv beta iota zeta delta [obind]. rewrite He. eexists. reflexivity.
  - cbv beta iota zeta.
    destruct (chat_lines env
                (skipn (List.length (chat :: history) - 5) (chat :: history)))
      as [lines|e'].
    + cbv beta iota zeta delta [obind]. rewrite He. eexists. reflexivity.
    + eexists. reflexivity.
Qed.

(** ** More on the agent runner *)

Lemma execute_tools_if_needed_returns (resp : response)
    (registry : list (string * tool World)) (st : state World) :
  exists msgs st',
    execute_tools_if_needed env resp registry st
    = (Ret (or_default (resp_content resp) "", msgs), st')
    /\ sent st' = sent st /\ slept st' = slept st.
Proof.
  unfold execute_tools_if_needed.
  destruct (resp_tool_calls resp) as [[|tc rest]|].
  - exists [], st. auto.
  - destruct (run_tool_calls_resolved registry (tc :: rest) st)
      as (msgs & st' & Hrun & _ & Hsent & Hslept).
    exists (AssistantMsg (resp_content resp) (tc :: rest) :: msgs), st'.
    unfold bind. rewrite Hrun. auto.
  - exists [], st. auto.
Qed.

Lemma or_default_twice (x : option string) (dflt : string) :
  or_default (Some (or_default x "")) dflt = or_default x dflt.
Proof. destruct x as [[|c r]|]; reflexivity. Qed.

Lemma first_messages_raises (agent_name : string) (user_ctx : UserContexts)
    (agent_ctx : AgentContexts) (st : state World) :
  ~ all_strings (agent_id_history agent_ctx) ->
  exists e,
    first_messages env agent_name user_ctx agent_ctx st = (Raise e, st).
Proof.
  intros Hnot. unfold first_messages, bind, load_prompt, lift.
  destruct (context_prompt_raises user_ctx agent_ctx
              match prompt_file env (world st) (str_lower env agent_name) with
              | Some prompt_content => prompt_content
              | None =>
                  "당신은 " ++ str_lower env agent_name
                  ++ " 에이전트입니다. 사용자의 요청에 도움이 되는 응답을 제공해주세요."
              end Hnot) as (e & He).
  rewrite He. exists e. reflexivity.
Qed.

(** X9.  Once an identity that is not a string stands in the history -
    the plan executor records a step's [agent_name] as it finds it - every
    further turn ends in the fault output before any request is made: the
    prompt cannot be assembled. *)
Theorem non_string_identity_faults (agent_name : string)
    (user_ctx : UserContexts) (agent_ctx : AgentContexts) (st : state World) :
  ~ all_strings (agent_id_history agent_ctx) ->
  execute_agent env agent_name user_ctx agent_ctx st
  = (Ret (fault_output agent_name), st).
Proof.
  intros Hnot.
  destruct (@first_messages_raises agent_name user_ctx agent_ctx st Hnot)
    as (e & He).
  unfold execute_agent, try_except, execute_agent_body, bind.
  rewrite He. reflexivity.
Qed.

Lemma scan_user_message_returns (history : list pydict) :
  Forall well_formed_turn history ->
  exists v, scan_user_message history = Ret v.
Proof.
  induction 1 as [|chat rest (role & content & Hrole & Hcontent) _ (v & IH)].
  - eexists. reflexivity.
  - simpl. unfold dict_item. rewrite Hrole, Hcontent. simpl.
    destruct (eq_str role "user"); eexists; [reflexivity | exact IH].
Qed.

Lemma first_messages_returns (agent_name : string) (user_ctx : UserContexts)
    (agent_ctx : AgentContexts) (st : state World) :
  Forall well_formed_turn (chat_history user_ctx) ->
  all_strings (agent_id_history agent_ctx) ->
  exists messages,
    first_messages env agent_name user_ctx agent_ctx st = (Ret messages, st).
Proof.
  intros Hchats Hnames. unfold first_messages, bind, load_prompt, lift.
  assert (Hrecent : Forall well_formed_turn
            (skipn (List.length (chat_history user_ctx) - 5)
               (chat_history user_ctx))).
  { rewrite <- (firstn_skipn (List.length (chat_history user_ctx) - 5)
                  (chat_history user_ctx)) in Hchats.
    apply Forall_app in Hchats. tauto. }
  destruct (context_prompt_returns user_ctx agent_ctx
              match prompt_file env (world st) (str_lower env agent_name) with
              | Some prompt_content => prompt_content
              | None =>
                  "당신은 " ++ str_lower env agent_name
                  ++ " 에이전트입니다. 사용자의 요청에 도움이 되는 응답을 제공해주세요."
              end Hrecent Hnames) as (info & Hprompt).
  rewrite Hprompt.
  destruct (scan_user_message_returns (Forall_rev Hchats)) as (v & Hlast).
  unfold last_user_message. rewrite Hlast. eexists. reflexivity.
Qed.

Lemma finish_turn_returns (agent_name : string) (agent_ctx : AgentContexts)
    (messages : list message) (resp : response) (st : state World) (b : bool) :
  int_ge (current_step agent_ctx + 1) (total_step agent_ctx) = Ret b ->
  exists o st', finish_turn env agent_name agent_ctx messages resp st = (Ret o, st').
Proof.
  intros Hfinal. unfold finish_turn.
  destruct (execute_tools_if_needed_returns resp (TOOL_FUNCTIONS env) st)
    as (msgs & st1 & Hrun & _).
  unfold bind at 1. rewrite Hrun.
  destruct msgs as [|m msgs].
  - unfold bind, ret, lift. rewrite Hfinal. eexists; eexists; reflexivity.
  - destruct (safe_llm_call_with_retry_returns
                (messages ++ m :: msgs)%list None 2 st1) as (o2 & st2 & Hcall).
    unfold bind. rewrite Hcall.
    destruct o2; unfold ret, lift; rewrite Hfinal;
      eexists; eexists; reflexivity.
Qed.

(** X10.  With a chat history of well-formed turns, string identities in
    the history and a [total_step] that can be compared with a number, a
    turn never ends in the fault output, whatever the model and the tools
    do: it ends in the unavailability output or runs through, with the
    finality flag the comparison gives. *)
Theorem well_formed_turn_never_faults (agent_name : string)
    (user_ctx : UserContexts) (agent_ctx : AgentContexts) (st : state World)
    (b : bool) :
  Forall well_formed_turn (chat_history user_ctx) ->
  all_strings (agent_id_history agent_ctx) ->
  int_ge (current_step agent_ctx + 1) (total_step agent_ctx) = Ret b ->
  exists o st',
    execute_agent env agent_name user_ctx agent_ctx st = (Ret o, st')
    /\ (o = unavailable_output agent_name
        \/ ran_through agent_name o /\ final_output o = b /\ output o <> "").
Proof.
  intros Hchats Hnames Hfinal.
  destruct (@first_messages_returns agent_name user_ctx agent_ctx st Hchats
              Hnames) as (messages & Hmsgs).
  destruct (safe_llm_call_with_retry_returns messages
              (first_tools env agent_name) 2 st) as ([resp|] & st1 & Hcall).
  - destruct (@finish_turn_returns agent_name agent_ctx messages resp st1 b
                Hfinal) as (o & st' & Hturn).
    exists o, st'. split.
    + unfold execute_agent, try_except, execute_agent_body, bind.
      rewrite Hmsgs, Hcall, Hturn. reflexivity.
    + right. destruct (finish_turn_ran_through _ _ _ _ _ Hturn)
        as (Hran & Hflag & Hout).
      rewrite Hfinal in Hflag. injection Hflag as Hflag. auto.
  - exists (unavailable_output agent_name), st1. split; [|left; reflexivity].
    unfold execute_agent, try_except, execute_agent_body, bind.
    rewrite Hmsgs, Hcall. reflexivity.
Qed.

(** X11.  When the first answer asks for no tool, the turn makes no
    further model call and runs no tool: it ends in the state the first
    call left, and its output is the answer's text, or the fixed notice
    when the answer has no text. *)
Theorem turn_without_tools (agent_name : string) (user_ctx : UserContexts)
    (agent_ctx : AgentContexts) (st st1 st2 : state World)
    (messages : list message) (resp : response) (b : bool) :
  first_messages env agent_name user_ctx agent_ctx st = (Ret messages, st1) ->
  safe_llm_call_with_retry env messages (first_tools env agent_name) 2 st1
  = (Ret (Some resp), st2) ->
  resp_tool_calls resp = None \/ resp_tool_calls resp = Some [] ->
  int_ge (current_step agent_ctx + 1) (total_step agent_ctx) = Ret b ->
  execute_agent env agent_name user_ctx agent_ctx st
  = (Ret {| final_output := b;
            progress_description := agent_name ++ "의 작업 완료";
            output := or_default (resp_content resp)
                        "응답을 생성할 수 없습니다." |}, st2).
Proof.
  intros Hmsgs Hcall Hnone Hfinal.
  unfold execute_agent, try_except, execute_agent_body, bind.
  rewrite Hmsgs, Hcall. unfold finish_turn, bind, execute_tools_if_needed.
  destruct Hnone as [-> | ->]; unfold ret, lift; rewrite Hfinal;
    rewrite or_default_twice; reflexivity.
Qed.

(** X12.  When the first answer asks for tools, the turn runs them and
    calls the model a second time, without tool declarations, on the first
    messages followed by the resolver's follow-up messages.  The output is
    the second answer's text (the fixed notice when it has none); when the
    second call comes back empty-handed, it is the first answer's text, or
    the notice that the tools ran but no answer could be made. *)
Theorem turn_with_tools (agent_name : string) (user_ctx : UserContexts)
    (agent_ctx : AgentContexts) (st st1 st2 st3 st4 : state World)
    (messages additional : list message) (resp : response)
    (tc : tool_call) (rest : list tool_call) (content : string)
    (second : option response) (b : bool) :
  first_messages env agent_name user_ctx agent_ctx st = (Ret messages, st1) ->
  safe_llm_call_with_retry env messages (first_tools env agent_name) 2 st1
  = (Ret (Some resp), st2) ->
  resp_tool_calls resp = Some (tc :: rest) ->
  execute_tools_if_needed env resp (TOOL_FUNCTIONS env) st2
  = (Ret (content, additional), st3) ->
  safe_llm_call_with_retry env (messages ++ additional)%list None 2 st3
  = (Ret second, st4) ->
  int_ge (current_step agent_ctx + 1) (total_step agent_ctx) = Ret b ->
  execute_agent env agent_name user_ctx agent_ctx st
  = (Ret {| final_output := b;
            progress_description := agent_name ++ "의 작업 완료";
            output :=
              match second with
              | Some answer =>
                  or_default (resp_content answer) "응답을 생성할 수 없습니다."
              | None =>
                  or_default (resp_content resp)
                    "도구 실행은 완료되었지만 최종 응답 생성에 실패했습니다."
              end |}, st4).
Proof.
  intros Hmsgs Hcall Hcalls Htools Hsecond Hfinal.
  unfold execute_agent, try_except, execute_agent_body, bind.
  rewrite Hmsgs, Hcall. unfold finish_turn, bind. rewrite Htools.
  unfold execute_tools_if_needed in Htools. rewrite Hcalls in Htools.
  apply bind_ret_inv in Htools. destruct Htools as (msgs & st' & _ & Htools).
  unfold ret in Htools. injection Htools as <- <- <-.
  rewrite Hsecond. unfold ret, lift. rewrite Hfinal.
  destruct second as [answer|]; [reflexivity|].
  do 3 f_equal.
  destruct (resp_content resp) as [[|c r]|]; reflexivity.
Qed.


(** ** More on the resolver *)




(** ** More on the planner *)

Lemma planner_answered_result (user_ctx : UserContexts)
    (agent_ctx : AgentContexts) (st st' : state World) (resp : response) :
  planner_answered env user_ctx agent_ctx st resp st' ->
  execute_manager env user_ctx agent_ctx st
  = (Ret match plan_of_response env resp with
         | Ret plan => plan
         | Raise _ => single_step_plan "비비" "오류 상황에서의 기본 응답"
         end, st').
Proof.
  intros (base & last & complete & Hbase & Hlast & Hprompt & Hcall).
  unfold execute_manager, try_except, execute_manager_body, bind, lift.
  rewrite Hbase, Hlast, Hprompt, Hcall.
  destruct (plan_of_response env resp); reflexivity.
Qed.

Lemma keyword_plan_first (resp : response) (text : string) :
  resp_content resp = Some text ->
  keyword_plan resp = Ret (single_step_plan (first_keyword text) "사용자 요청 처리").
Proof.
  intros Htext. unfold keyword_plan, first_keyword. rewrite Htext.
  cbn [find].
  repeat match goal with
         | |- context [if contains ?kw text then _ else _] =>
             destruct (contains kw text)
         end; reflexivity.
Qed.

(** X14.  When the text the model answered the planner with does not
    decode as JSON, the plan has one step, for the first identity among
    키키, 아거, 라무, 콜리 - tried in this order, wherever they stand in the
    text - that the whole answer mentions, and for 비비 when it mentions
    none. *)
Theorem planner_keyword_fallback (user_ctx : UserContexts)
    (agent_ctx : AgentContexts) (st st' : state World) (resp : response)
    (text : string) (e : exn) :
  planner_answered env user_ctx agent_ctx st resp st' ->
  resp_content resp = Some text ->
  json_loads env (strip_code_fence env text) = Raise e ->
  exn_kind e = JSONDecodeError ->
  execute_manager env user_ctx agent_ctx st
  = (Ret (single_step_plan (first_keyword text) "사용자 요청 처리"), st').
Proof.
  intros Hanswered Htext Hloads Hkind.
  rewrite (planner_answered_result Hanswered).
  unfold plan_of_response, decode_plan. rewrite Htext, Hloads. simpl.
  rewrite Hkind, (keyword_plan_first _ Htext). reflexivity.
Qed.

(** X15.  When the model's answer to the planner decodes as JSON to
    something that is not an object - a list, a text, a number, null - or
    when the answer has no text at all, no keyword is looked for: the
    planner returns its one-step plan for 비비 made for faults. *)
Theorem planner_rejects_non_object (user_ctx : UserContexts)
    (agent_ctx : AgentContexts) (st st' : state World) (resp : response) :
  planner_answered env user_ctx agent_ctx st resp st' ->
  resp_content resp = None
  \/ (exists text v,
        resp_content resp = Some text
        /\ json_loads env (strip_code_fence env text) = Ret v
        /\ forall d, v <> PDict d) ->
  execute_manager env user_ctx agent_ctx st
  = (Ret (single_step_plan "비비" "오류 상황에서의 기본 응답"), st').
Proof.
  intros Hanswered Hcase.
  rewrite (planner_answered_result Hanswered).
  unfold plan_of_response, decode_plan.
  destruct Hcase as [Hnone | (text & v & Htext & Hloads & Hv)].
  - rewrite Hnone. reflexivity.
  - rewrite Htext, Hloads.
    destruct v; try reflexivity. exfalso. eapply Hv. reflexivity.
Qed.

Lemma always_fails_gateway (messages : list message)
    (tools : option (list pyval)) (st : state World) :
  always_fails env ->
  exists st',
    safe_llm_call_with_retry env messages tools 2 st = (Ret None, st')
    /\ sent st' = (sent st ++ repeat (call_params messages tools) 3)%list.
Proof.
  intros Hdown.
  destruct (retry_loop_exhausts messages tools 2 Hdown 3%nat 0 st)
    as (st' & Hrun & Hsent & _); [reflexivity|].
  exists st'. auto.
Qed.

Lemma planner_model_down_plan (user_ctx : UserContexts)
    (agent_ctx : AgentContexts) (st : state World) :
  always_fails env ->
  exists description st',
    execute_manager env user_ctx agent_ctx st
    = (Ret (single_step_plan "비비" description), st').
Proof.
  intros Hdown.
  unfold execute_manager, try_except, execute_manager_body, bind, lift,
    load_prompt.
  destruct (last_user_message user_ctx) as [last|e];
    [|eexists; eexists; reflexivity].
  match goal with
  | |- context [create_context_prompt env user_ctx agent_ctx ?base] =>
      destruct (create_context_prompt env user_ctx agent_ctx base)
        as [complete|e]
  end; [|eexists; eexists; reflexivity].
  match goal with
  | |- context [safe_llm_call_with_retry env ?messages None 2 st] =>
      destruct (always_fails_gateway messages None st Hdown)
        as (st' & Hcall & Hsent)
  end.
  rewrite Hcall. eexists; eexists; reflexivity.
Qed.

(** X16.  When the model is down, the planner returns a one-step plan for
    비비: the one made for unavailability, after exactly three attempts at
    the same request, or - when the planner's own prompt could not be
    built - the one made for faults, without any attempt. *)
Theorem planner_model_down (user_ctx : UserContexts)
    (agent_ctx : AgentContexts) (st : state World) :
  always_fails env ->
  exists description st',
    execute_manager env user_ctx agent_ctx st
    = (Ret (single_step_plan "비비" description), st')
    /\ (description = "사용자 요청에 대한 기본적인 응답 제공"
        /\ (exists req, sent st' = (sent st ++ [req; req; req])%list)
        \/ description = "오류 상황에서의 기본 응답" /\ st' = st).
Proof.
  intros Hdown.
  unfold execute_manager, try_except, execute_manager_body, bind, lift,
    load_prompt.
  destruct (last_user_message user_ctx) as [last|e];
    [|eexists; eexists; split; [reflexivity | right; auto]].
  match goal with
  | |- context [create_context_prompt env user_ctx agent_ctx ?base] =>
      destruct (create_context_prompt env user_ctx agent_ctx base)
        as [complete|e]
  end; [|eexists; eexists; split; [reflexivity | right; auto]].
  match goal with
  | |- context [safe_llm_call_with_retry env ?messages None 2 st] =>
      destruct (always_fails_gateway messages None st Hdown)
        as (st' & Hcall & Hsent)
  end.
  rewrite Hcall. eexists; eexists; split; [reflexivity|].
  left. split; [reflexivity|]. eexists. exact Hsent.
Qed.


(** ** Plans end to end *)

Lemma single_step_run (agent_name description : string)
    (user_ctx : UserContexts) (st : state World) :
  exists o st',
    execute_plan env (single_step_plan agent_name description) user_ctx st
    = (Ret (extend (fresh_context (single_step_plan agent_name description))
              [PStr agent_name] [o]), st')
    /\ execute_agent env (runner_identity (PStr agent_name)) user_ctx
         (fresh_context (single_step_plan agent_name description)) st
       = (Ret o, st').
Proof.
  destruct (execute_agent_returns (runner_identity (PStr agent_name)) user_ctx
              (fresh_context (single_step_plan agent_name description)) st)
    as (o & st' & Hturn).
  exists o, st'. split; [|exact Hturn].
  destruct (find_executor_runner (PStr agent_name) eq_refl)
    as (found & Hfound & Hsame).
  rewrite <- Hsame in Hturn.
  unfold execute_plan, bind, lift. cbn [single_step_plan plans py_iter run_steps].
  unfold bind, run_step, bind, lift.
  change (py_getitem _ "agent_name") with (Ret (PStr agent_name)).
  change (py_getitem _ "description") with (Ret (PStr description)).
  cbv beta iota. rewrite Hfound.
  destruct found; rewrite Hturn; reflexivity.
Qed.

(** X17.  Each of the planner's synthesized plans, executed, completes
    with exactly one record: the plan's identity, and an output that is
    final and not empty. *)
Theorem synthesized_plan_runs (agent_name description : string)
    (user_ctx : UserContexts) (st : state World) :
  exists o st' ctx,
    execute_plan env (single_step_plan agent_name description) user_ctx st
    = (Ret ctx, st')
    /\ agent_id_history ctx = [PStr agent_name]
    /\ agent_output ctx = [o]
    /\ current_step ctx = 1
    /\ final_output o = true
    /\ output o <> "".
Proof.
  destruct (single_step_run agent_name description user_ctx st)
    as (o & st' & Hrun & Hturn).
  exists o, st'. eexists. split; [exact Hrun|].
  repeat split.
  - destruct (execute_agent_cases _ _ _ _ Hturn)
      as [-> | [-> | (_ & Hflag & _)]]; try reflexivity.
    simpl in Hflag. injection Hflag as <-. reflexivity.
  - destruct (execute_agent_cases _ _ _ _ Hturn)
      as [-> | [-> | (_ & _ & Hout)]];
      [apply unavailable_output_nonempty | apply fault_output_nonempty | exact Hout].
Qed.

Lemma always_fails_turn (agent_name : string) (user_ctx : UserContexts)
    (agent_ctx : AgentContexts) (st st' : state World) (o : AgentOutput) :
  always_fails env ->
  execute_agent env agent_name user_ctx agent_ctx st = (Ret o, st') ->
  o = unavailable_output agent_name \/ o = fault_output agent_name.
Proof.
  intros Hdown. unfold execute_agent, try_except, execute_agent_body, bind.
  destruct (first_messages env agent_name user_ctx agent_ctx st)
    as [[messages|e] st1]; [|intros H; injection H as <- _; auto].
  destruct (always_fails_gateway messages (first_tools env agent_name) st1 Hdown)
    as (st2 & Hcall & _).
  rewrite Hcall. intros H. injection H as <- _. auto.
Qed.

(** X18.  When the model is down, planning and then executing the plan
    still completes: the context returned holds one record, for 비비, whose
    output is the unavailability apology or the fault apology. *)
Theorem model_down_end_to_end (user_ctx : UserContexts)
    (agent_ctx : AgentContexts) (st : state World) :
  always_fails env ->
  exists plan st1 ctx st2 o,
    execute_manager env user_ctx agent_ctx st = (Ret plan, st1)
    /\ execute_plan env plan user_ctx st1 = (Ret ctx, st2)
    /\ agent_id_history ctx = [PStr "비비"]
    /\ agent_output ctx = [o]
    /\ (o = unavailable_output "비비" \/ o = fault_output "비비").
Proof.
  intros Hdown.
  destruct (planner_model_down_plan user_ctx agent_ctx st Hdown)
    as (description & st1 & Hplan).
  destruct (single_step_run "비비" description user_ctx st1)
    as (o & st2 & Hrun & Hturn).
  exists (single_step_plan "비비" description), st1. eexists. exists st2, o.
  split; [exact Hplan|]. split; [exact Hrun|].
  repeat split.
  exact (@always_fails_turn (runner_identity (PStr "비비")) _ _ _ _ _ Hdown Hturn).
Qed.


(** ** More on the data model *)


Lemma add_plan_steps_built (steps : list (string * string)) :
  forall (plan : AgentPlan) (l : list pyval),
    plans plan = PList l ->
    steps <> [] ->
    add_plan_steps plan steps
    = Ret {| total_steps :=
               PInt (Z.of_nat (List.length (l ++ map built_step steps)%list));
             plans := PList (l ++ map built_step steps)%list;
             mode := mode plan |}.
Proof.
  induction steps as [|[agent_name description] rest IH];
    intros plan l Hl Hne; [contradiction|].
  cbn [add_plan_steps]. unfold add_plan_step. rewrite Hl. cbn [obind map].
  destruct rest as [|s rest].
  - reflexivity.
  - erewrite IH; [|reflexivity | discriminate].
    cbn [mode]. rewrite <- !app_assoc. reflexivity.
Qed.

Lemma built_steps_runnable (steps : list (string * string)) :
  Forall runnable_step (map built_step steps).
Proof.
  induction steps as [|s rest IH]; constructor; [|exact IH].
  exists (PStr (fst s)). repeat split. eexists. reflexivity.
Qed.

Lemma built_steps_names (steps : list (string * string)) (names : list pyval) :
  Forall2 step_named (map built_step steps) names ->
  names = map (fun s => PStr (fst s)) steps.
Proof.
  revert names. induction steps as [|s rest IH]; intros names Hall;
    inversion Hall as [|? name ? names' (Hname & _) Hrest]; subst;
    [reflexivity|].
  cbn in Hname. injection Hname as <-. cbn [map]. f_equal. apply IH, Hrest.
Qed.

(** X20.  A plan built from the class defaults with [add_plan_step], at
    least once, can be executed as it is: [execute_plan] completes with
    one record per step, the identities being the names given, in order;
    [total_step] is the number of records; and the last output is
    final. *)
Theorem built_plan_runs (steps : list (string * string))
    (user_ctx : UserContexts) (st : state World) :
  steps <> [] ->
  exists plan ctx st',
    add_plan_steps default_AgentPlan steps = Ret plan
    /\ steps_agree plan
    /\ execute_plan env plan user_ctx st = (Ret ctx, st')
    /\ agent_id_history ctx = map (fun s => PStr (fst s)) steps
    /\ List.length (agent_output ctx) = List.length steps
    /\ total_step ctx = PInt (Z.of_nat (List.length steps))
    /\ (forall o,
          nth_error (agent_output ctx) (List.length steps - 1) = Some o ->
          final_output o = true).
Proof.
  intros Hne.
  pose proof (add_plan_steps_built default_AgentPlan eq_refl Hne) as Hbuilt.
  cbn [app mode default_AgentPlan] in Hbuilt.
  set (plan := {| total_steps :=
                    PInt (Z.of_nat (List.length (map built_step steps)));
                  plans := PList (map built_step steps);
                  mode := PStr "chat" |}) in *.
  destruct (run_steps_returns user_ctx (built_steps_runnable steps)
              (fresh_context plan) st) as (ctx & st' & Hrun).
  destruct (run_steps_trace _ _ _ (fresh_context_invariant plan) Hrun)
    as (names & outs & sts & -> & Hnamed & Hlen & _ & _ & Hturns).
  pose proof (built_steps_names _ Hnamed) as ->.
  rewrite length_map in Hlen.
  exists plan. eexists. exists st'.
  split; [exact Hbuilt|]. split.
  { exists (List.length steps). cbn. rewrite length_map.
    split; [reflexivity | apply Z.eqb_refl]. }
  split; [exact Hrun|]. cbn [extend fresh_context agent_id_history
                              agent_output total_step total_steps plan app].
  rewrite length_map. repeat split; auto.
  intros o Ho.
  assert (Hlt : (List.length steps - 1 < List.length steps)%nat)
    by (destruct steps; [contradiction | simpl; lia]).
  destruct (nth_error (map (fun s => PStr (fst s)) steps)
              (List.length steps - 1)) as [name|] eqn:Hname;
    [|apply nth_error_None in Hname; rewrite length_map in Hname; lia].
  specialize (Hturns _ _ _ Hname Ho).
  destruct (execute_agent_cases _ _ _ _ Hturns)
    as [-> | [-> | (_ & Hflag & _)]]; try reflexivity.
  cbn [extend fresh_context current_step total_step total_steps plan
       agent_id_history app] in Hflag.
  rewrite length_firstn, !length_map, Nat.min_l in Hflag by lia.
  cbn [int_ge] in Hflag. injection Hflag as <-. apply Z.leb_le. lia.
Qed.

(** X21.  The two finality tests of the code agree: what [is_final_step]
    answers once a result has been recorded is what a turn computes as
    [current_step + 1 >= total_step] before it. *)
Theorem is_final_step_agrees (c : AgentContexts) (agent_name : pyval)
    (o : AgentOutput) :
  invariant c ->
  is_final_step (add_agent_result c agent_name o)
  = int_ge (current_step c + 1) (total_step c).
Proof.
  intros [_ Hstep]. unfold is_final_step, add_agent_result.
  cbn [current_step total_step agent_id_history].
  rewrite length_app, Hstep. cbn [List.length]. f_equal. lia.
Qed.

(** ** More on session state persistence *)

Lemma new_AgentPlan_asdict (plan : AgentPlan) :
  new_AgentPlan (asdict_AgentPlan plan) = Ret plan.
Proof. destruct plan. reflexivity. Qed.

(** X22.  [from_json (to_json x)] is [x] again for an AgentPlan and for an
    AgentOutput too, whenever the dict image of [x] survives the trip
    through the JSON text. *)
Theorem json_round_trip_plan_output (dumps : pyval -> string)
    (loads : string -> outcome pyval) :
  (forall plan : AgentPlan,
      loads (dumps (asdict_AgentPlan plan)) = Ret (asdict_AgentPlan plan) ->
      AgentPlan_from_json loads (AgentPlan_to_json dumps plan) = Ret plan)
  /\ (forall o : AgentOutput,
        loads (dumps (asdict_AgentOutput o)) = Ret (asdict_AgentOutput o) ->
        AgentOutput_from_json loads (AgentOutput_to_json dumps o) = Ret o).
Proof.
  split.
  - intros plan H. unfold AgentPlan_from_json, AgentPlan_to_json.
    rewrite H. apply new_AgentPlan_asdict.
  - intros o H. unfold AgentOutput_from_json, AgentOutput_to_json.
    rewrite H. apply new_AgentOutput_asdict.
Qed.

Lemma kwargs_non_object (fields : list string) (v : pyval) :
  (forall d, v <> PDict d) ->
  exists e, kwargs fields v = Raise e /\ exn_kind e = TypeError.
Proof.
  intros Hv. destruct v; try (eexists; split; reflexivity).
  exfalso. eapply Hv. reflexivity.
Qed.

(** X23.  A JSON text that decodes to something other than an object is
    turned down by each of the four [from_json] with TypeError; and what
    the decoder raises, [from_json] lets through. *)
Theorem from_json_rejects_non_object (loads : string -> outcome pyval)
    (json_str : string) :
  (forall v, loads json_str = Ret v -> (forall d, v <> PDict d) ->
     (exists e, UserContexts_from_json loads json_str = Raise e
                /\ exn_kind e = TypeError)
     /\ (exists e, AgentOutput_from_json loads json_str = Raise e
                   /\ exn_kind e = TypeError)
     /\ (exists e, AgentPlan_from_json loads json_str = Raise e
                   /\ exn_kind e = TypeError)
     /\ (exists e, AgentContexts_from_json loads json_str = Raise e
                   /\ exn_kind e = TypeError))
  /\ (forall e, loads json_str = Raise e ->
        UserContexts_from_json loads json_str = Raise e
        /\ AgentOutput_from_json loads json_str = Raise e
        /\ AgentPlan_from_json loads json_str = Raise e
        /\ AgentContexts_from_json loads json_str = Raise e).
Proof.
  unfold UserContexts_from_json, AgentOutput_from_json, AgentPlan_from_json,
    AgentContexts_from_json, new_UserContexts, new_AgentOutput, new_AgentPlan.
  split.
  - intros v Hv Hnot. rewrite Hv. cbn [obind].
    split; [|split; [|split]];
      match goal with
      | |- context [kwargs ?fields v] =>
          destruct (kwargs_non_object fields Hnot) as (e & -> & Hkind)
      end; exists e; (split; [reflexivity | exact Hkind]).
  - intros e He. rewrite He. cbn [obind]. auto.
Qed.

(** ** Plans that cannot be run to their end *)

Lemma run_step_raises (user_ctx : UserContexts) (agent_ctx : AgentContexts)
    (step_plan : pyval) (st : state World) :
  ~ runnable_step step_plan ->
  exists e, run_step env user_ctx agent_ctx step_plan st = (Raise e, st).
Proof.
  intros Hnot. unfold run_step, bind, lift.
  destruct (py_getitem step_plan "agent_name") as [agent_name|e] eqn:Hname;
    [|eexists; reflexivity].
  destruct (py_getitem step_plan "description") as [description|e] eqn:Hdesc;
    [|eexists; reflexivity].
  destruct (find_executor env agent_name) as [found|e] eqn:Hfound;
    [|eexists; reflexivity].
  exfalso. apply Hnot. exists agent_name.
  repeat split; eauto using find_executor_hashable.
Qed.

(** X24.  When a step of the plan cannot be run - not a mapping, no
    [agent_name] or one that cannot be hashed, no [description] -
    [execute_plan] raises at that step: the steps before it have had their
    turns, with all their effects on the world, but their records are not
    returned, and no later step is run. *)
Theorem execute_plan_stops_at_bad_step (plan : AgentPlan)
    (user_ctx : UserContexts) (st : state World)
    (good rest : list pyval) (bad : pyval) :
  plans plan = PList (good ++ bad :: rest)%list ->
  Forall runnable_step good ->
  ~ runnable_step bad ->
  exists e ctx st',
    run_steps env user_ctx (fresh_context plan) good st = (Ret ctx, st')
    /\ List.length (agent_output ctx) = List.length good
    /\ execute_plan env plan user_ctx st = (Raise e, st').
Proof.
  intros Hplans Hgood Hbad.
  destruct (run_steps_returns user_ctx Hgood (fresh_context plan) st)
    as (ctx & st' & Hrun).
  destruct (run_step_raises user_ctx ctx st' Hbad) as (e & Hstep).
  exists e, ctx, st'. split; [exact Hrun|]. split.
  - destruct (run_steps_trace _ _ _ (fresh_context_invariant plan) Hrun)
      as (names & outs & sts & -> & _ & Hlen & _). exact Hlen.
  - unfold execute_plan, bind, lift. rewrite Hplans. cbn [py_iter].
    clear Hplans. revert Hrun. generalize (fresh_context plan). revert st.
    induction Hgood as [|step_plan good' _ _ IH]; intros st c Hrun.
    + cbn [run_steps] in Hrun. unfold ret in Hrun. injection Hrun as -> ->.
      cbn [app run_steps]. unfold bind. rewrite Hstep. reflexivity.
    + cbn [app run_steps] in *. unfold bind in *.
      destruct (run_step env user_ctx c step_plan st) as [[c1|e1] st1];
        [|discriminate].
      apply IH, Hrun.
Qed.


End Facts.

(** * Concrete runs *)

(** C5 at [max_retries = 2], on a model that is down with a different
    failure at each attempt: three attempts, two sleeps, [None]. *)
Lemma gateway_retry_exhaustion_witness :
  always_fails Demo.down
  /\ 0 <= 2
  /\ exists st',
       safe_llm_call_with_retry Demo.down [Msg "user" (PStr "x")] None 2
         {| world := O; sent := []; slept := O |}
       = (Ret None, st')
       /\ sent st'
          = ([] ++ repeat (call_params [Msg "user" (PStr "x")] None)
                     (Z.to_nat (2 + 1)))%list
       /\ Z.of_nat (List.length (sent st')) = Z.of_nat 0 + (2 + 1)
       /\ Z.of_nat (slept st') = Z.of_nat 0 + 2.
Proof.
  assert (Hdown : always_fails Demo.down).
  { intros w req. eexists. eexists. reflexivity. }
  assert (Hr : 0 <= 2) by lia.
  split; [exact Hdown|]. split; [exact Hr|].
  exact (@gateway_retry_exhaustion nat Demo.down [Msg "user" (PStr "x")] None 2
           {| world := O; sent := []; slept := O |} Hdown Hr).
Defined.

(** C8 on the context of a completed two-step plan. *)
Lemma add_agent_result_invariant_witness :
  invariant Demo.two_step_result
  /\ invariant (add_agent_result Demo.two_step_result (PStr "콜리")
                  (unavailable_output "콜리")).
Proof.
  assert (Hinv : invariant Demo.two_step_result) by (split; reflexivity).
  split; [exact Hinv|].
  exact (proj2 (proj2 (proj2 (proj2 (proj2
    (add_agent_result_invariant (PStr "콜리") (unavailable_output "콜리")
       Hinv)))))).
Defined.

(** C4 on two turns of the first agent: one with the model down, one
    where the context announces its total as a text, so that computing
    the finality flag raises once the model has answered. *)
Lemma agent_runner_contains_faults_witness :
  (first_messages Demo.env "비비" (Demo.user_says "x")
     (fresh_context Demo.two_step_plan) (Demo.start [])
   = (Ret Demo.bibi_messages, Demo.start [])
   /\ safe_llm_call_with_retry Demo.env Demo.bibi_messages
        (first_tools Demo.env "비비") 2 (Demo.start [])
      = (Ret None, Demo.after_three_attempts)
   /\ exists o,
        execute_agent Demo.env "비비" (Demo.user_says "x")
          (fresh_context Demo.two_step_plan) (Demo.start [])
        = (Ret o, Demo.after_three_attempts)
        /\ final_output o = true
        /\ progress_description o = "비비" ++ " 실행 실패"
        /\ output o
           = "죄송합니다. 현재 서비스에 일시적인 문제가 발생했습니다. 잠시 후 다시 시도해주세요.")
  /\ (fst (execute_agent_body Demo.env "비비" (Demo.user_says "x")
             Demo.text_total_context (Demo.start [Demo.text_reply "hello"]))
      = Raise (mkExn TypeError "'>=' not supported between these instances")
      /\ exists o,
           fst (execute_agent Demo.env "비비" (Demo.user_says "x")
                  Demo.text_total_context
                  (Demo.start [Demo.text_reply "hello"]))
           = Ret o
           /\ final_output o = true
           /\ progress_description o = "비비" ++ " 실행 중 오류 발생"
           /\ output o
              = "죄송합니다. " ++ "비비"
                ++ " 실행 중 오류가 발생했습니다. 다시 시도해주세요.").
Proof.
  assert (Hmsgs :
    first_messages Demo.env "비비" (Demo.user_says "x")
      (fresh_context Demo.two_step_plan) (Demo.start [])
    = (Ret Demo.bibi_messages, Demo.start [])) by (vm_compute; reflexivity).
  assert (Hcall :
    safe_llm_call_with_retry Demo.env Demo.bibi_messages
      (first_tools Demo.env "비비") 2 (Demo.start [])
    = (Ret None, Demo.after_three_attempts)) by (vm_compute; reflexivity).
  assert (Hbody :
    execute_agent_body Demo.env "비비" (Demo.user_says "x")
      Demo.text_total_context (Demo.start [Demo.text_reply "hello"])
    = (Raise (mkExn TypeError "'>=' not supported between these instances"),
       snd (execute_agent_body Demo.env "비비" (Demo.user_says "x")
              Demo.text_total_context (Demo.start [Demo.text_reply "hello"]))))
    by (vm_compute; reflexivity).
  split.
  - split; [exact Hmsgs|]. split; [exact Hcall|].
    exact (proj1 (proj2
      (agent_runner_contains_faults Demo.env "비비" (Demo.user_says "x")
         (fresh_context Demo.two_step_plan) (Demo.start [])))
      _ _ _ Hmsgs Hcall).
  - split; [rewrite Hbody; reflexivity|].
    destruct (proj2 (proj2
      (agent_runner_contains_faults Demo.env "비비" (Demo.user_says "x")
         Demo.text_total_context (Demo.start [Demo.text_reply "hello"])))
      _ _ Hbody) as (o & Hrun & Hfinal & Hprogress & Houtput).
    exists o. rewrite Hrun. auto.
Defined.

(** C9 with the reference codec, on a user context and on the context of
    a completed plan. *)
Lemma json_round_trip_witness :
  (RefJson.loads (RefJson.dumps (asdict_UserContexts (Demo.user_says "x")))
   = Ret (asdict_UserContexts (Demo.user_says "x"))
   /\ UserContexts_from_json RefJson.loads
        (UserContexts_to_json RefJson.dumps (Demo.user_says "x"))
      = Ret (Demo.user_says "x"))
  /\ (RefJson.loads (RefJson.dumps (asdict_AgentContexts Demo.two_step_result))
      = Ret (asdict_AgentContexts Demo.two_step_result)
      /\ AgentContexts_from_json RefJson.loads
           (AgentContexts_to_json RefJson.dumps Demo.two_step_result)
         = Ret Demo.two_step_result).
Proof.
  assert (Hu :
    RefJson.loads (RefJson.dumps (asdict_UserContexts (Demo.user_says "x")))
    = Ret (asdict_UserContexts (Demo.user_says "x")))
    by (vm_compute; reflexivity).
  assert (Ha :
    RefJson.loads (RefJson.dumps (asdict_AgentContexts Demo.two_step_result))
    = Ret (asdict_AgentContexts Demo.two_step_result))
    by (vm_compute; reflexivity).
  split.
  - split; [exact Hu|].
    exact (proj1 (json_round_trip RefJson.dumps RefJson.loads) _ Hu).
  - split; [exact Ha|].
    exact (proj2 (json_round_trip RefJson.dumps RefJson.loads) _ Ha).
Defined.

(** The amended C1 on the two-step plan, run while the model is down. *)
Lemma completed_plan_lengths_witness :
  Demo.two_step_run = (Ret Demo.two_step_result, snd Demo.two_step_run)
  /\ exists n : nat,
       py_len (plans Demo.two_step_plan) = Ret n
       /\ List.length (agent_id_history Demo.two_step_result) = n
       /\ List.length (agent_output Demo.two_step_result) = n
       /\ current_step Demo.two_step_result = Z.of_nat n
       /\ total_step Demo.two_step_result = total_steps Demo.two_step_plan
       /\ (steps_agree Demo.two_step_plan
           <-> eq_int (total_step Demo.two_step_result)
                 (Z.of_nat (List.length (agent_output Demo.two_step_result)))
               = true).
Proof.
  assert (Hrun :
    execute_plan Demo.env Demo.two_step_plan (Demo.user_says "x") (Demo.start [])
    = (Ret Demo.two_step_result, snd Demo.two_step_run))
    by (vm_compute; reflexivity).
  split; [exact Hrun|].
  exact (completed_plan_lengths Demo.env Demo.two_step_plan
           (Demo.user_says "x") (Demo.start []) Hrun).
Defined.

(** C1 as stated fails: a plan of one step that announces three runs to
    completion with one record in each history, while [total_step] is 3. *)
Lemma completed_plan_lengths_counterexample :
  Demo.overstated_run = (Ret Demo.overstated_result, snd Demo.overstated_run)
  /\ List.length (agent_id_history Demo.overstated_result) = 1%nat
  /\ List.length (agent_output Demo.overstated_result) = 1%nat
  /\ total_step Demo.overstated_result = PInt 3
  /\ eq_int (total_step Demo.overstated_result)
       (Z.of_nat (List.length (agent_output Demo.overstated_result))) = false.
Proof. vm_compute. repeat split; reflexivity. Qed.

(** C2 as stated fails: when the model answers the planner with a JSON
    text of one step that announces three, the plan returned is that text
    decoded, and its [total_steps] is not [len(plans)]. *)
Lemma planner_never_raises_counterexample :
  fst (execute_manager Demo.env (Demo.user_says "x") Demo.idle_context
         (Demo.start [Demo.text_reply Demo.overstated_reply]))
  = Ret Demo.overstated_plan
  /\ py_len (plans Demo.overstated_plan) = Ret 1%nat
  /\ eq_int (total_steps Demo.overstated_plan) 1 = false
  /\ ~ steps_agree Demo.overstated_plan.
Proof.
  split; [vm_compute; reflexivity|].
  split; [reflexivity|]. split; [reflexivity|].
  intros (n & Hn & Heq). simpl in Hn. injection Hn as <-. discriminate.
Qed.

(** The amended C3 on the last output of the two-step plan. *)
Lemma finality_of_recorded_outputs_witness :
  Demo.two_step_run = (Ret Demo.two_step_result, snd Demo.two_step_run)
  /\ nth_error (agent_output Demo.two_step_result) 1
     = Some (unavailable_output "키키")
  /\ exists agent_name,
       nth_error (agent_id_history Demo.two_step_result) 1 = Some agent_name
       /\ let identity := runner_identity agent_name in
          let o := unavailable_output "키키" in
          ((o = unavailable_output identity \/ o = fault_output identity)
           /\ final_output o = true
           \/ ran_through identity o
              /\ int_ge (Z.of_nat 1 + 1) (total_steps Demo.two_step_plan)
                 = Ret (final_output o))
          /\ (steps_agree Demo.two_step_plan ->
              if (2 =? List.length (agent_output Demo.two_step_result))%nat
              then final_output o = true
              else o = unavailable_output identity
                   \/ o = fault_output identity
                   \/ ran_through identity o /\ final_output o = false).
Proof.
  assert (Hrun :
    execute_plan Demo.env Demo.two_step_plan (Demo.user_says "x") (Demo.start [])
    = (Ret Demo.two_step_result, snd Demo.two_step_run))
    by (vm_compute; reflexivity).
  assert (Hlast :
    nth_error (agent_output Demo.two_step_result) 1
    = Some (unavailable_output "키키")) by reflexivity.
  split; [exact Hrun|]. split; [exact Hlast|].
  exact (finality_of_recorded_outputs Demo.env Demo.two_step_plan
           (Demo.user_says "x") (Demo.start []) Hrun 1 Hlast).
Defined.

(** C3 as stated fails, twice over.  In the two-step plan run while the
    model is down, the first of the two outputs is final although
    [total_steps] is 2.  In the plan of one step that announces three, run
    with a model that answers, the last output is not final. *)
Lemma finality_of_recorded_outputs_counterexample :
  (Demo.two_step_run = (Ret Demo.two_step_result, snd Demo.two_step_run)
   /\ total_steps Demo.two_step_plan = PInt 2
   /\ exists o, nth_error (agent_output Demo.two_step_result) 0 = Some o
                /\ final_output o = true)
  /\ (Demo.overstated_run
      = (Ret Demo.overstated_result, snd Demo.overstated_run)
      /\ List.length (agent_output Demo.overstated_result) = 1%nat
      /\ exists o, nth_error (agent_output Demo.overstated_result) 0 = Some o
                   /\ final_output o = false).
Proof.
  split.
  - split; [vm_compute; reflexivity|]. split; [reflexivity|].
    eexists. split; reflexivity.
  - split; [vm_compute; reflexivity|]. split; [reflexivity|].
    eexists. split; reflexivity.
Qed.

(** The amended C10 on the two-step plan. *)
Lemma plan_executor_runs_each_step_witness :
  plans Demo.two_step_plan
  = PList [Demo.step "비비" "인사"; Demo.step "키키" "뉴스"]
  /\ Forall runnable_step [Demo.step "비비" "인사"; Demo.step "키키" "뉴스"]
  /\ exists (names : list pyval) (outs : list AgentOutput)
            (sts : nat -> state Demo.World),
       execute_plan Demo.env Demo.two_step_plan (Demo.user_says "x")
         (Demo.start [])
       = (Ret (extend (fresh_context Demo.two_step_plan) names outs), sts 2%nat)
       /\ sts O = Demo.start []
       /\ Forall2 step_named
            [Demo.step "비비" "인사"; Demo.step "키키" "뉴스"] names
       /\ List.length outs = 2%nat.
Proof.
  assert (Hplans :
    plans Demo.two_step_plan
    = PList [Demo.step "비비" "인사"; Demo.step "키키" "뉴스"]) by reflexivity.
  assert (Hsteps :
    Forall runnable_step [Demo.step "비비" "인사"; Demo.step "키키" "뉴스"]).
  { repeat constructor.
    - exists (PStr "비비"). repeat split. exists (PStr "인사"). reflexivity.
    - exists (PStr "키키"). repeat split. exists (PStr "뉴스"). reflexivity. }
  split; [exact Hplans|]. split; [exact Hsteps|].
  destruct (plan_executor_runs_each_step Demo.env Demo.two_step_plan
              (Demo.user_says "x") (Demo.start []) Hplans Hsteps)
    as (names & outs & sts & Hrun & Hfirst & Hnamed & Hlen & _).
  exists names, outs, sts. auto.
Defined.

(** C10 as stated fails: on a plan whose step lacks its description,
    [execute_plan] raises KeyError before any agent runs, and returns no
    context. *)
Lemma plan_executor_runs_each_step_counterexample :
  fst (execute_plan Demo.env Demo.incomplete_plan (Demo.user_says "x")
         (Demo.start [Demo.text_reply "hello"]))
  = Raise (mkExn KeyError "description")
  /\ sent (snd (execute_plan Demo.env Demo.incomplete_plan (Demo.user_says "x")
                  (Demo.start [Demo.text_reply "hello"]))) = [].
Proof. split; vm_compute; reflexivity. Qed.

(** * Concrete runs of the further properties *)

(** X1: one failure, then an answer, within two retries. *)
Lemma gateway_retry_success_witness :
  safe_llm_call_with_retry Demo.env Demo.bibi_messages None 2
    (Demo.start [Raise Demo.connection_error; Demo.text_reply "hello"])
  = (Ret (Some {| resp_content := Some "hello"; resp_tool_calls := None |}),
     {| world := [];
        sent := ([] ++ repeat (call_params Demo.bibi_messages None) 2)%list;
        slept := (0 + 1)%nat |}).
Proof.
  assert (Hruns :
    fails_then_returns
      (fun w => transport Demo.env w (call_params Demo.bibi_messages None))
      {| resp_content := Some "hello"; resp_tool_calls := None |} 1
      (world (Demo.start [Raise Demo.connection_error; Demo.text_reply "hello"]))
      []).
  { eapply fails_once_more; [reflexivity|]. apply returns_now. reflexivity. }
  assert (Hk : Z.of_nat 1 <= 2) by lia.
  exact (gateway_retry_success Demo.env Demo.bibi_messages None
           (Demo.start [Raise Demo.connection_error; Demo.text_reply "hello"])
           Hruns Hk).
Defined.

(** X3: two failures, then the data, within two retries of three
    seconds' delay. *)
Lemma request_retry_success_witness :
  safe_request_with_retry Demo.flaky 2 3 {| world := O; sent := []; slept := O |}
  = (Ret (Some "data"),
     {| world := 3%nat; sent := []; slept := (0 + 2 * 3)%nat |}).
Proof.
  assert (Hruns : fails_then_returns Demo.flaky "data" 2 O 3%nat).
  { eapply fails_once_more; [reflexivity|].
    eapply fails_once_more; [reflexivity|].
    apply returns_now. reflexivity. }
  assert (Hk : Z.of_nat 2 <= 2) by lia.
  exact (request_retry_success 3 {| world := O; sent := []; slept := O |}
           Hruns Hk).
Defined.

(** X4: three failures with two retries. *)
Lemma request_retry_exhaustion_witness :
  safe_request_with_retry Demo.broken 2 3 {| world := O; sent := []; slept := O |}
  = (Ret None,
     {| world := 3%nat; sent := []; slept := (0 + Z.to_nat 2 * 3)%nat |}).
Proof.
  assert (Hr : 0 <= 2) by lia.
  assert (Hfails : fails_times Demo.broken (Z.to_nat (2 + 1)) O 3%nat).
  { eapply fails_again; [reflexivity|].
    eapply fails_again; [reflexivity|].
    eapply fails_again; [reflexivity|]. apply fails_no_more. }
  exact (request_retry_exhaustion 3 {| world := O; sent := []; slept := O |}
           Hr Hfails).
Defined.

(** X5: the user's turn, with the assistant's turn behind it. *)
Lemma last_user_message_latest_witness :
  last_user_message Demo.two_turns = Ret (PStr "x").
Proof.
  assert (Hother :
    Forall other_turn
      [chat_message "assistant" "y" "2025-01-01T00:00:01" None]).
  { constructor; [|constructor]. exists (PStr "assistant").
    split; reflexivity. }
  exact (proj1 (last_user_message_latest Demo.two_turns) [] _ _ (PStr "user")
           eq_refl eq_refl eq_refl Hother).
Defined.

(** X8: the prompt of a third turn after the two-step plan. *)
Lemma context_prompt_returns_witness :
  exists context_info,
    create_context_prompt Demo.env Demo.two_turns Demo.two_step_result "base"
    = Ret ("base" ++ context_info ++ nl ++ nl
           ++ "위 정보를 참고하여 사용자의 요청에 적절히 응답해주세요.").
Proof.
  assert (Hchats :
    Forall well_formed_turn
      (skipn (List.length (chat_history Demo.two_turns) - 5)
         (chat_history Demo.two_turns))).
  { repeat constructor; eexists; eexists; split; reflexivity. }
  assert (Hnames : all_strings (agent_id_history Demo.two_step_result)).
  { repeat constructor; eexists; reflexivity. }
  exact (context_prompt_returns Demo.env Demo.two_turns Demo.two_step_result
           "base" Hchats Hnames).
Defined.

(** X9: a turn after a step named 5 was recorded. *)
Lemma non_string_identity_faults_witness :
  execute_agent Demo.env "키키" (Demo.user_says "x") Demo.numbered_context
    (Demo.start [Demo.text_reply "hello"])
  = (Ret (fault_output "키키"), Demo.start [Demo.text_reply "hello"]).
Proof.
  assert (Hnot : ~ all_strings (agent_id_history Demo.numbered_context)).
  { intros Hall. inversion Hall as [|v l (s & Hs) _]. discriminate. }
  exact (non_string_identity_faults Demo.env "키키" (Demo.user_says "x")
           Demo.numbered_context (Demo.start [Demo.text_reply "hello"]) Hnot).
Defined.

(** X10: the first turn of the two-step plan, with a model that
    answers. *)
Lemma well_formed_turn_never_faults_witness :
  exists o st',
    execute_agent Demo.env "비비" (Demo.user_says "x")
      (fresh_context Demo.two_step_plan) (Demo.start [Demo.text_reply "hello"])
    = (Ret o, st')
    /\ (o = unavailable_output "비비"
        \/ ran_through "비비" o /\ final_output o = false /\ output o <> "").
Proof.
  assert (Hchats : Forall well_formed_turn (chat_history (Demo.user_says "x"))).
  { repeat constructor; eexists; eexists; split; reflexivity. }
  assert (Hnames :
    all_strings (agent_id_history (fresh_context Demo.two_step_plan)))
    by constructor.
  assert (Hflag :
    int_ge (current_step (fresh_context Demo.two_step_plan) + 1)
      (total_step (fresh_context Demo.two_step_plan)) = Ret false)
    by reflexivity.
  exact (well_formed_turn_never_faults Demo.env "비비" (Demo.user_says "x")
           (fresh_context Demo.two_step_plan)
           (Demo.start [Demo.text_reply "hello"]) Hchats Hnames Hflag).
Defined.

(** X11: the same turn, in full. *)
Lemma turn_without_tools_witness :
  execute_agent Demo.env "비비" (Demo.user_says "x")
    (fresh_context Demo.two_step_plan) (Demo.start [Demo.text_reply "hello"])
  = (Ret {| final_output := false;
            progress_description := "비비" ++ "의 작업 완료";
            output := or_default (Some "hello") "응답을 생성할 수 없습니다." |},
     {| world := []; sent := [call_params Demo.bibi_messages None];
        slept := O |}).
Proof.
  assert (Hmsgs :
    first_messages Demo.env "비비" (Demo.user_says "x")
      (fresh_context Demo.two_step_plan) (Demo.start [Demo.text_reply "hello"])
    = (Ret Demo.bibi_messages, Demo.start [Demo.text_reply "hello"]))
    by (vm_compute; reflexivity).
  assert (Hcall :
    safe_llm_call_with_retry Demo.env Demo.bibi_messages
      (first_tools Demo.env "비비") 2 (Demo.start [Demo.text_reply "hello"])
    = (Ret (Some {| resp_content := Some "hello"; resp_tool_calls := None |}),
       {| world := []; sent := [call_params Demo.bibi_messages None];
          slept := O |})) by (vm_compute; reflexivity).
  assert (Hflag :
    int_ge (current_step (fresh_context Demo.two_step_plan) + 1)
      (total_step (fresh_context Demo.two_step_plan)) = Ret false)
    by reflexivity.
  exact (turn_without_tools Demo.env "비비" (Demo.user_says "x")
           (fresh_context Demo.two_step_plan)
           (Demo.start [Demo.text_reply "hello"]) Hmsgs Hcall
           (or_introl eq_refl) Hflag).
Defined.

(** X12: the second turn of the two-step plan; the model asks for the
    news tool and is down when called again. *)
Lemma turn_with_tools_witness :
  execute_agent Demo.env "키키" (Demo.user_says "x") Demo.second_turn_context
    (Demo.start [Ret Demo.news_request])
  = (Ret {| final_output := true;
            progress_description := "키키" ++ "의 작업 완료";
            output := or_default (resp_content Demo.news_request)
                        "도구 실행은 완료되었지만 최종 응답 생성에 실패했습니다." |},
     snd (execute_agent Demo.env "키키" (Demo.user_says "x")
            Demo.second_turn_context (Demo.start [Ret Demo.news_request]))).
Proof.
  pose (st := Demo.start [Ret Demo.news_request]).
  pose (st2 := {| world := @nil (outcome response);
                  sent := [call_params Demo.kiki_messages
                             (first_tools Demo.env "키키")];
                  slept := O |}).
  pose (additional := [ AssistantMsg None [Demo.news_call];
                        ToolMsg "call_1" (PStr "[]") ]).
  assert (Hmsgs :
    first_messages Demo.env "키키" (Demo.user_says "x")
      Demo.second_turn_context st = (Ret Demo.kiki_messages, st))
    by (vm_compute; reflexivity).
  assert (Hcall :
    safe_llm_call_with_retry Demo.env Demo.kiki_messages
      (first_tools Demo.env "키키") 2 st = (Ret (Some Demo.news_request), st2))
    by (vm_compute; reflexivity).
  assert (Hcalls : resp_tool_calls Demo.news_request = Some [Demo.news_call])
    by reflexivity.
  assert (Htools :
    execute_tools_if_needed Demo.env Demo.news_request
      (TOOL_FUNCTIONS Demo.env) st2 = (Ret ("", additional), st2))
    by (vm_compute; reflexivity).
  assert (Hsecond :
    safe_llm_call_with_retry Demo.env (Demo.kiki_messages ++ additional)%list
      None 2 st2
    = (Ret None,
       snd (execute_agent Demo.env "키키" (Demo.user_says "x")
              Demo.second_turn_context (Demo.start [Ret Demo.news_request]))))
    by (vm_compute; reflexivity).
  assert (Hflag :
    int_ge (current_step Demo.second_turn_context + 1)
      (total_step Demo.second_turn_context) = Ret true) by reflexivity.
  exact (turn_with_tools Demo.env "키키" (Demo.user_says "x")
           Demo.second_turn_context st Hmsgs Hcall Hcalls Htools Hsecond Hflag).
Defined.


(** X14: an answer in plain words that mentions two identities. *)
Lemma planner_keyword_fallback_witness :
  execute_manager Demo.env (Demo.user_says "x") Demo.idle_context
    (Demo.start [Demo.text_reply "plan: 아거 then 키키"])
  = (Ret (single_step_plan "키키" "사용자 요청 처리"),
     snd (execute_manager Demo.env (Demo.user_says "x") Demo.idle_context
            (Demo.start [Demo.text_reply "plan: 아거 then 키키"]))).
Proof.
  assert (Hanswered :
    planner_answered Demo.env (Demo.user_says "x") Demo.idle_context
      (Demo.start [Demo.text_reply "plan: 아거 then 키키"])
      {| resp_content := Some "plan: 아거 then 키키"; resp_tool_calls := None |}
      (snd (execute_manager Demo.env (Demo.user_says "x") Demo.idle_context
              (Demo.start [Demo.text_reply "plan: 아거 then 키키"])))).
  { eexists. eexists. eexists.
    split; [reflexivity|]. split; [reflexivity|]. split; [reflexivity|].
    vm_compute. reflexivity. }
  exact (planner_keyword_fallback Hanswered eq_refl
           (e := mkExn JSONDecodeError "Expecting value") eq_refl eq_refl).
Defined.

(** X15: an answer that is a JSON list. *)
Lemma planner_rejects_non_object_witness :
  execute_manager Demo.env (Demo.user_says "x") Demo.idle_context
    (Demo.start [Demo.text_reply "[1]"])
  = (Ret (single_step_plan "비비" "오류 상황에서의 기본 응답"),
     snd (execute_manager Demo.env (Demo.user_says "x") Demo.idle_context
            (Demo.start [Demo.text_reply "[1]"]))).
Proof.
  assert (Hanswered :
    planner_answered Demo.env (Demo.user_says "x") Demo.idle_context
      (Demo.start [Demo.text_reply "[1]"])
      {| resp_content := Some "[1]"; resp_tool_calls := None |}
      (snd (execute_manager Demo.env (Demo.user_says "x") Demo.idle_context
              (Demo.start [Demo.text_reply "[1]"])))).
  { eexists. eexists. eexists.
    split; [reflexivity|]. split; [reflexivity|]. split; [reflexivity|].
    vm_compute. reflexivity. }
  refine (planner_rejects_non_object Hanswered _).
  right. exists "[1]", (PList [PInt 1]).
  split; [reflexivity|]. split; [reflexivity|]. discriminate.
Defined.

Lemma down_always_fails : always_fails Demo.down.
Proof. intros w req. eexists. eexists. reflexivity. Defined.

(** X16: the planner while the model is down. *)
Lemma planner_model_down_witness :
  exists description st',
    execute_manager Demo.down (Demo.user_says "x") Demo.idle_context
      {| world := O; sent := []; slept := O |}
    = (Ret (single_step_plan "비비" description), st').
Proof.
  destruct (planner_model_down (Demo.user_says "x") Demo.idle_context
              {| world := O; sent := []; slept := O |} down_always_fails)
    as (description & st' & Hrun & _).
  exists description, st'. exact Hrun.
Defined.

(** X18: planning and executing while the model is down. *)
Lemma model_down_end_to_end_witness :
  exists plan st1 ctx st2 o,
    execute_manager Demo.down (Demo.user_says "x") Demo.idle_context
      {| world := O; sent := []; slept := O |} = (Ret plan, st1)
    /\ execute_plan Demo.down plan (Demo.user_says "x") st1 = (Ret ctx, st2)
    /\ agent_id_history ctx = [PStr "비비"]
    /\ agent_output ctx = [o]
    /\ (o = unavailable_output "비비" \/ o = fault_output "비비").
Proof.
  exact (model_down_end_to_end (Demo.user_says "x") Demo.idle_context
           {| world := O; sent := []; slept := O |} down_always_fails).
Defined.


(** X20: a plan of two steps built with [add_plan_step], run while the
    model is down. *)
Lemma built_plan_runs_witness :
  [("키키", "뉴스"); ("아거", "분석")] <> []
  /\ exists plan ctx st',
       add_plan_steps default_AgentPlan [("키키", "뉴스"); ("아거", "분석")]
       = Ret plan
       /\ steps_agree plan
       /\ execute_plan Demo.env plan (Demo.user_says "x") (Demo.start [])
          = (Ret ctx, st')
       /\ agent_id_history ctx = [PStr "키키"; PStr "아거"]
       /\ List.length (agent_output ctx) = 2%nat.
Proof.
  assert (Hne : [("키키", "뉴스"); ("아거", "분석")] <> []) by discriminate.
  split; [exact Hne|].
  destruct (built_plan_runs Demo.env (Demo.user_says "x") (Demo.start []) Hne)
    as (plan & ctx & st' & Hbuilt & Hagree & Hrun & Hnames & Hlen & _).
  exists plan, ctx, st'. auto.
Defined.

(** X21: on the context of the completed two-step plan. *)
Lemma is_final_step_agrees_witness :
  invariant Demo.two_step_result
  /\ is_final_step (add_agent_result Demo.two_step_result (PStr "콜리")
                      (unavailable_output "콜리"))
     = int_ge (current_step Demo.two_step_result + 1)
         (total_step Demo.two_step_result).
Proof.
  assert (Hinv : invariant Demo.two_step_result) by (split; reflexivity).
  split; [exact Hinv|].
  exact (is_final_step_agrees (PStr "콜리") (unavailable_output "콜리") Hinv).
Defined.

(** X22: with the reference codec, on the two-step plan and on an
    apology. *)
Lemma json_round_trip_plan_output_witness :
  AgentPlan_from_json RefJson.loads
    (AgentPlan_to_json RefJson.dumps Demo.two_step_plan)
  = Ret Demo.two_step_plan
  /\ AgentOutput_from_json RefJson.loads
       (AgentOutput_to_json RefJson.dumps (unavailable_output "비비"))
     = Ret (unavailable_output "비비").
Proof.
  assert (Hplan :
    RefJson.loads (RefJson.dumps (asdict_AgentPlan Demo.two_step_plan))
    = Ret (asdict_AgentPlan Demo.two_step_plan)) by (vm_compute; reflexivity).
  assert (Hout :
    RefJson.loads (RefJson.dumps (asdict_AgentOutput (unavailable_output "비비")))
    = Ret (asdict_AgentOutput (unavailable_output "비비")))
    by (vm_compute; reflexivity).
  split.
  - exact (proj1 (json_round_trip_plan_output RefJson.dumps RefJson.loads)
             _ Hplan).
  - exact (proj2 (json_round_trip_plan_output RefJson.dumps RefJson.loads)
             _ Hout).
Defined.

(** X23: a JSON list where a plan is expected. *)
Lemma from_json_rejects_non_object_witness :
  exists e, AgentPlan_from_json RefJson.loads "[1]" = Raise e
            /\ exn_kind e = TypeError.
Proof.
  assert (Hloads : RefJson.loads "[1]" = Ret (PList [PInt 1])) by reflexivity.
  assert (Hnot : forall d, PList [PInt 1] <> PDict d) by discriminate.
  exact (proj1 (proj2 (proj2
    (proj1 (from_json_rejects_non_object RefJson.loads "[1]") _ Hloads Hnot)))).
Defined.

(** X24: a plan whose second step lacks its description, with a model
    that answers the first step. *)
Lemma execute_plan_stops_at_bad_step_witness :
  exists e ctx st',
    run_steps Demo.env (Demo.user_says "x") (fresh_context Demo.broken_plan)
      [Demo.step "비비" "인사"] (Demo.start [Demo.text_reply "hello"])
    = (Ret ctx, st')
    /\ List.length (agent_output ctx) = 1%nat
    /\ execute_plan Demo.env Demo.broken_plan (Demo.user_says "x")
         (Demo.start [Demo.text_reply "hello"])
       = (Raise e, st').
Proof.
  assert (Hgood : Forall runnable_step [Demo.step "비비" "인사"]).
  { repeat constructor. exists (PStr "비비"). repeat split.
    exists (PStr "인사"). reflexivity. }
  assert (Hbad : ~ runnable_step (PDict [("agent_name", PStr "키키")])).
  { intros (agent_name & _ & _ & description & Hdesc). discriminate. }
  exact (@execute_plan_stops_at_bad_step _ Demo.env Demo.broken_plan
           (Demo.user_says "x") (Demo.start [Demo.text_reply "hello"])
           [Demo.step "비비" "인사"] [] (PDict [("agent_name", PStr "키키")])
           eq_refl Hgood Hbad).
Defined.
